(** * Home Service Recommender: the client-side handlers of
      [static/js/script.js]

    The script registers, once the markup is ready, one listener per
    interactive element: copy a contact number, submit a review, submit a
    booking, remove a booking, remove a user, delete the own account.

    The development has three layers.
    - [JS]: the part of the language the handlers rely on: values, the
      conversions [ToBoolean] and [ToString], [parseInt], [parseFloat],
      [JSON.stringify], [String.prototype.split].
    - [DOM]: the document as a tree of elements, object identity as a
      unique number per element, and the browser state a handler can touch
      (timers, dialogs, console, clipboard, location, network).
    - [Script]: the six handlers, statement by statement.

    What the model represents, stated once:
    - a string is the UTF-8 encoding of its text: an ASCII character is
      one byte, every other character a sequence of bytes of which none
      is an ASCII byte;
    - a finite number is an IEEE 754 double, named by the decimal that
      [Number::toString] prints for it; [parseInt] and [parseFloat] round
      to the nearest double, and overflow to an infinity. The sign of
      zero is not represented: nothing in the script observes it;
    - a request body is the JSON document that [JSON.stringify] denotes,
      not its characters;
    - the document is its body element and what the body contains. The
      field [value] of an element is what its [value] property reads; it
      is a string on the form controls ([is_control]), which is where
      the statements about what is read from a form apply;
    - markup assigned through [innerHTML] is kept as the text that was
      assigned, and what the element contained leaves the tree. The
      elements that the browser makes of the markup are not in the tree.
      The handlers reach elements by id only, and the markup they write
      carries no id of its own; the one part they do not write is the
      message of the server. Where a statement depends on what is found
      by id after such a write, or on the markup that is read back, it
      asks for a message that is plain text ([plain_text]). The message
      areas are what the script takes them for, div elements
      ([reviewMessageDiv], [bookingMessageDiv]): markup assigned to a
      div is parsed as it stands;
    - a handler runs from the event to its last statement without another
      handler running while it waits for the server. The answer of the
      server, the answer of the user to a confirmation and the outcome of
      the copy command are given by an [Environment]. *)

From Stdlib Require Import String Ascii List ZArith Bool Lia DecimalString.
Import ListNotations.
Open Scope string_scope.
Set Warnings "-register-all".
Set Warnings "-automation".


(* ===================================================================== *)
(** * The JavaScript values and built-ins used by the script *)
(* ===================================================================== *)

Module JS.

(** A Number: not-a-number, an infinity, or the double that prints as
    the decimal [m * 10^e]. *)
Inductive Number :=
| NaN
| Infinity (negative : bool)
| Finite (m e : Z).

Inductive Value :=
| VUndefined
| VNull
| VBool (b : bool)
| VNumber (n : Number)
| VString (s : string)
| VArray (items : list Value)
| VObject (fields : list (string * Value)).

(** The errors a handler can meet. *)
Inductive Error :=
| TypeError        (* property access on null *)
| NetworkError     (* fetch rejected *)
| SyntaxError      (* the response body is not JSON *)
| NotFoundError    (* removeChild on a node that is not a child *)
| CommandError.    (* execCommand threw *)

(** A JSON document, as it travels in a request body. JSON has no
    not-a-number, no infinities and no undefined. *)
Inductive json :=
| JNull
| JBool (b : bool)
| JNumber (m e : Z)
| JString (s : string)
| JArray (items : list json)
| JObject (members : list (string * json)).

(** ** Characters *)

Definition code (c : ascii) : nat := nat_of_ascii c.

(** The double quote. *)
Definition dq : string := String "034"%char "".

(** The white space and the line terminators that [parseInt] and
    [parseFloat] skip, by the number of bytes of their encoding.
    One byte: TAB, LF, VT, FF, CR and the space. *)
Definition is_str_whitespace (c : ascii) : bool :=
  let n := code c in
  (((9 <=? n) && (n <=? 13)) || (n =? 32))%nat.

(** Two bytes: the no-break space U+00A0. *)
Definition is_str_whitespace2 (a b : ascii) : bool :=
  ((code a =? 194) && (code b =? 160))%nat.

(** Three bytes: U+1680, U+2000 to U+200A, the line and the paragraph
    separator U+2028 and U+2029, U+202F, U+205F, U+3000, and the byte
    order mark U+FEFF. *)
Definition is_str_whitespace3 (a b c : ascii) : bool :=
  let x := code a in
  let y := code b in
  let z := code c in
  (((x =? 225) && (y =? 154) && (z =? 128))
   || ((x =? 226) && (y =? 128)
       && (((128 <=? z) && (z <=? 138)) || (z =? 168) || (z =? 169)
           || (z =? 175)))
   || ((x =? 226) && (y =? 129) && (z =? 159))
   || ((x =? 227) && (y =? 128) && (z =? 128))
   || ((x =? 239) && (y =? 187) && (z =? 191)))%nat.

(** ASCII white space of the DOM standard: it separates class tokens. *)
Definition is_ascii_whitespace (c : ascii) : bool :=
  let n := code c in
  ((n =? 9) || (n =? 10) || (n =? 12) || (n =? 13) || (n =? 32))%nat.

Definition decimal_digit (c : ascii) : option Z :=
  let n := code c in
  if ((48 <=? n) && (n <=? 57))%nat then Some (Z.of_nat (n - 48)) else None.

Definition hex_digit (c : ascii) : option Z :=
  let n := code c in
  if ((48 <=? n) && (n <=? 57))%nat then Some (Z.of_nat (n - 48))
  else if ((97 <=? n) && (n <=? 102))%nat then Some (Z.of_nat (n - 87))
  else if ((65 <=? n) && (n <=? 70))%nat then Some (Z.of_nat (n - 55))
  else None.

Fixpoint trim_start (s : string) : string :=
  match s with
  | String a r1 =>
      if is_str_whitespace a then trim_start r1
      else
        match r1 with
        | String b r2 =>
            if is_str_whitespace2 a b then trim_start r2
            else
              match r2 with
              | String c r3 =>
                  if is_str_whitespace3 a b c then trim_start r3 else s
              | EmptyString => s
              end
        | EmptyString => s
        end
  | EmptyString => EmptyString
  end.

(** The longest run of digits at the start of [s], and what follows. *)
Fixpoint digits_prefix (digit : ascii -> option Z) (s : string)
  : list Z * string :=
  match s with
  | String c r =>
      match digit c with
      | Some d => let (ds, rest) := digits_prefix digit r in (d :: ds, rest)
      | None => ([], s)
      end
  | EmptyString => ([], EmptyString)
  end.

Definition digits_value (radix : Z) (ds : list Z) : Z :=
  fold_left (fun acc d => acc * radix + d)%Z ds 0%Z.

(** An optional sign: [true] for a minus. *)
Definition read_sign (s : string) : bool * string :=
  match s with
  | String "-" r => (true, r)
  | String "+" r => (false, r)
  | _ => (false, s)
  end.

Definition signed (negative : bool) (z : Z) : Z :=
  if negative then (- z)%Z else z.

Local Open Scope Z_scope.

(** ** Rounding to a double

    A finite Number is an IEEE 754 double. The model names a double by
    the decimal that [Number::toString] prints for it: the shortest
    digits [m] and the exponent [e] with [m * 10^e] rounding to it. *)

(** The integer nearest to [n / d], ties to the even one. *)
Definition round_div (n d : Z) : Z :=
  let q := n / d in
  match 2 * (n mod d) ?= d with
  | Lt => q
  | Gt => q + 1
  | Eq => if Z.even q then q else q + 1
  end.

(** [b^k <= n / d], for positive [n] and [d]. *)
Definition power_below (b k n d : Z) : bool :=
  if 0 <=? k then d * b ^ k <=? n else d <=? n * b ^ (- k).

(** The floor of the binary logarithm of [n / d]. *)
Definition floor_log2 (n d : Z) : Z :=
  let k := Z.log2 n - Z.log2 d in
  if power_below 2 k n d then k else k - 1.

(** The double nearest to the positive [n / d], as a significand below
    [2^53] and a binary exponent from -1074 on; nothing where the
    rounding overflows. *)
Definition nearest_double (n d : Z) : option (Z * Z) :=
  let E := Z.max (floor_log2 n d - 52) (-1074) in
  let M := if 0 <=? E then round_div n (d * 2 ^ E)
           else round_div (n * 2 ^ (- E)) d in
  let '(M, E) := if M =? 2 ^ 53 then (2 ^ 52, E + 1) else (M, E) in
  if 971 <? E then None else Some (M, E).

(** [s * 10^p] as a fraction. *)
Definition decimal_fraction (s p : Z) : Z * Z :=
  if 0 <=? p then (s * 10 ^ p, 1) else (s, 10 ^ (- p)).

Definition rounds_to (M E s p : Z) : bool :=
  let (n, d) := decimal_fraction s p in
  match nearest_double n d with
  | Some (M', E') => (M' =? M) && (E' =? E)
  | None => false
  end.

(** The floor of the decimal logarithm of [n / d]: an estimate from the
    binary logarithms, then corrected. *)
Definition floor_log10 (n d : Z) : Z :=
  let g := ((Z.log2 n - Z.log2 d) * 1233) / 4096 in
  let up g := if power_below 10 (g + 1) n d then g + 1 else g in
  let down g := if power_below 10 g n d then g else g - 1 in
  down (down (up (up g))).

(** The decimal of [k] digits for the double [n / d], where one rounds
    to it: of the two decimals around it the nearer, the even one when
    they are as near. *)
Definition digits_for (M E n d k : Z) : option (Z * Z) :=
  let p := floor_log10 n d + 1 - k in
  let '(a, b) := if 0 <=? p then (n, d * 10 ^ p) else (n * 10 ^ (- p), d) in
  let lo := a / b in
  let hi := lo + 1 in
  match rounds_to M E lo p, rounds_to M E hi p with
  | true, true =>
      match 2 * (a mod b) ?= b with
      | Lt => Some (lo, p)
      | Gt => Some (hi, p)
      | Eq => Some (if Z.even lo then lo else hi, p)
      end
  | true, false => Some (lo, p)
  | false, true => Some (hi, p)
  | false, false => None
  end.

Fixpoint shortest_from (M E n d k : Z) (more : nat) : Z * Z :=
  match digits_for M E n d k, more with
  | Some r, _ => r
  | None, S more' => shortest_from M E n d (k + 1) more'
  | None, O => (n / d, 0)
  end.

(** Zeros at the end of the digits move into the exponent. *)
Fixpoint normal_decimal (fuel : nat) (s p : Z) : Z * Z :=
  match fuel with
  | S fuel' =>
      if (s mod 10 =? 0) && negb (s =? 0)
      then normal_decimal fuel' (s / 10) (p + 1)
      else (s, p)
  | O => (s, p)
  end.

(** The shortest decimal that rounds to the double [M * 2^E]. *)
Definition shortest_decimal (M E : Z) : Z * Z :=
  let '(n, d) := if 0 <=? E then (M * 2 ^ E, 1) else (M, 2 ^ (- E)) in
  let '(s, p) := shortest_from M E n d 1 16 in
  normal_decimal 400 s p.

(** The Number value of the decimal [m * 10^e], [m] not negative: the
    nearest double, an infinity beyond the largest one. *)
Definition to_double (negative : bool) (m e : Z) : Number :=
  if m =? 0 then Finite 0 0
  else if 310 <? e + Z.log2 m / 4 then Infinity negative
  else if e + Z.log2 m <? -330 then Finite 0 0
  else
    let (n, d) := decimal_fraction m e in
    match nearest_double n d with
    | None => Infinity negative
    | Some (M, E) =>
        if M =? 0 then Finite 0 0
        else let (s, p) := shortest_decimal M E in Finite (signed negative s) p
    end.

Local Close Scope Z_scope.

(** ** parseInt(string), no radix given *)

Definition strip_hex_prefix (s : string) : option string :=
  match s with
  | String "0" (String "x" r) => Some r
  | String "0" (String "X" r) => Some r
  | _ => None
  end.

Definition parseInt (input : string) : Number :=
  let (negative, s) := read_sign (trim_start input) in
  let '(radix, digit, s) :=
    match strip_hex_prefix s with
    | Some r => (16%Z, hex_digit, r)
    | None => (10%Z, decimal_digit, s)
    end in
  match fst (digits_prefix digit s) with
  | [] => NaN
  | ds => to_double negative (digits_value radix ds) 0
  end.

(** ** parseFloat(string): the longest prefix that is a decimal literal *)

Definition read_exponent (s : string) : Z :=
  match s with
  | String c r =>
      if ((code c =? 101) || (code c =? 69))%nat then
        let (negative, r') := read_sign r in
        match fst (digits_prefix decimal_digit r') with
        | [] => 0%Z
        | ds => signed negative (digits_value 10 ds)
        end
      else 0%Z
  | EmptyString => 0%Z
  end.

Definition parseFloat (input : string) : Number :=
  let (negative, s) := read_sign (trim_start input) in
  if prefix "Infinity" s then Infinity negative
  else
    let (int_digits, r1) := digits_prefix decimal_digit s in
    let (frac_digits, r2) :=
      match r1 with
      | String "." r => digits_prefix decimal_digit r
      | _ => ([], r1)
      end in
    match (int_digits ++ frac_digits)%list with
    | [] => NaN
    | ds =>
        to_double negative (digits_value 10 ds)
                  (read_exponent r2 - Z.of_nat (length frac_digits))
    end.

(** ** ToBoolean *)

Definition truthy (v : Value) : bool :=
  match v with
  | VUndefined | VNull => false
  | VBool b => b
  | VNumber NaN => false
  | VNumber (Infinity _) => true
  | VNumber (Finite m _) => negb (m =? 0)%Z
  | VString s => negb (s =? "")
  | VArray _ | VObject _ => true
  end.

(** ** ToString *)

Definition digits_of (n : Z) : string :=
  NilZero.string_of_uint (N.to_uint (Z.to_N n)).

Fixpoint zeros (n : nat) : string :=
  match n with O => "" | S k => String "0" (zeros k) end.

(** Trailing zeros of a digit string move into the exponent. *)
Fixpoint strip_zeros (rev_digits : list ascii) (e : Z) : list ascii * Z :=
  match rev_digits with
  | "0"%char :: r => strip_zeros r (e + 1)
  | _ => (rev_digits, e)
  end.

(** Number::toString for a positive [m * 10^e]. *)
Definition positive_to_string (m e : Z) : string :=
  let (rd, e') := strip_zeros (rev (list_ascii_of_string (digits_of m))) e in
  let digits := string_of_list_ascii (rev rd) in
  let k := Z.of_nat (String.length digits) in
  let n := (k + e')%Z in
  if ((k <=? n) && (n <=? 21))%Z then
    digits ++ zeros (Z.to_nat (n - k))
  else if ((0 <? n) && (n <=? 21))%Z then
    substring 0 (Z.to_nat n) digits ++ "."
      ++ substring (Z.to_nat n) (Z.to_nat (k - n)) digits
  else if ((-6 <? n) && (n <=? 0))%Z then
    "0." ++ zeros (Z.to_nat (- n)) ++ digits
  else
    let x := (n - 1)%Z in
    let exponent :=
      (if (x <? 0)%Z then "e-" else "e+") ++ digits_of (Z.abs x) in
    if (k =? 1)%Z then digits ++ exponent
    else substring 0 1 digits ++ "."
           ++ substring 1 (Z.to_nat (k - 1)) digits ++ exponent.

Definition number_to_string (n : Number) : string :=
  match n with
  | NaN => "NaN"
  | Infinity false => "Infinity"
  | Infinity true => "-Infinity"
  | Finite m e =>
      if (m =? 0)%Z then "0"
      else if (m <? 0)%Z then "-" ++ positive_to_string (- m) e
      else positive_to_string m e
  end.

Fixpoint join (sep : string) (l : list string) : string :=
  match l with
  | [] => ""
  | [x] => x
  | x :: r => x ++ sep ++ join sep r
  end.

(** What a template literal or [alert] makes of a value. An array joins
    its items with commas, null and undefined items giving nothing. *)
Fixpoint to_string (v : Value) : string :=
  match v with
  | VUndefined => "undefined"
  | VNull => "null"
  | VBool true => "true"
  | VBool false => "false"
  | VNumber n => number_to_string n
  | VString s => s
  | VArray items =>
      join ","
        (map (fun x => match x with
                       | VUndefined | VNull => ""
                       | _ => to_string x
                       end) items)
  | VObject _ => "[object Object]"
  end.

(** [getAttribute] gives a string or null. *)
Definition of_attribute (a : option string) : Value :=
  match a with Some s => VString s | None => VNull end.

(** ** Property read [v.key], for a key that no built-in prototype has *)

Fixpoint lookup_field (key : string) (fields : list (string * Value))
  : Value :=
  match fields with
  | [] => VUndefined
  | (k, v) :: r => if k =? key then v else lookup_field key r
  end.

Definition get_property (v : Value) (key : string) : Error + Value :=
  match v with
  | VUndefined | VNull => inl TypeError
  | VObject fields => inr (lookup_field key fields)
  | _ => inr VUndefined
  end.

(** ** JSON.stringify

    [None] stands for undefined: the member is left out of an object and
    written as null in an array. A number that is not finite is written
    as null. *)
Fixpoint serialize (v : Value) : option json :=
  match v with
  | VUndefined => None
  | VNull => Some JNull
  | VBool b => Some (JBool b)
  | VNumber (Finite m e) => Some (JNumber m e)
  | VNumber _ => Some JNull
  | VString s => Some (JString s)
  | VArray items =>
      Some (JArray (map (fun x => match serialize x with
                                  | Some j => j
                                  | None => JNull
                                  end) items))
  | VObject fields =>
      Some (JObject
              ((fix members (l : list (string * Value)) :=
                  match l with
                  | [] => []
                  | (k, x) :: r =>
                      match serialize x with
                      | Some j => (k, j) :: members r
                      | None => members r
                      end
                  end) fields))
  end.

Definition JSON_stringify (v : Value) : option json := serialize v.

(** What the receiver reads back from a JSON document. *)
Fixpoint JSON_parse (j : json) : Value :=
  match j with
  | JNull => VNull
  | JBool b => VBool b
  | JNumber m e => VNumber (Finite m e)
  | JString s => VString s
  | JArray items => VArray (map JSON_parse items)
  | JObject members =>
      VObject (map (fun kv => (fst kv, JSON_parse (snd kv))) members)
  end.

Fixpoint member (key : string) (members : list (string * json))
  : option json :=
  match members with
  | [] => None
  | (k, j) :: r => if k =? key then Some j else member key r
  end.

(** ** String.prototype.split on a one-character separator *)

Fixpoint split_from (sep : ascii) (s : string) (piece : string)
  : list string :=
  match s with
  | EmptyString => [piece]
  | String c r =>
      if Ascii.eqb c sep then piece :: split_from sep r ""
      else split_from sep r (piece ++ String c "")
  end.

Definition split (sep : ascii) (s : string) : list string :=
  split_from sep s "".

End JS.

Import JS.


(* ===================================================================== *)
(** * The document and the browser state *)
(* ===================================================================== *)

Module DOM.

(** An element object. [uid] is its identity: two references denote the
    same object exactly when they carry the same number. *)
Record Element := mkElement {
  uid : nat;
  tagName : string;
  el_id : string;                          (* the id attribute *)
  attributes : list (string * string);     (* the other attributes *)
  className : string;
  value : string;
  innerHTML : string }.

(** A reference held in a script variable. *)
Definition Ref := nat.

Inductive Node := node (element : Element) (childNodes : list Node).

Definition element_of (n : Node) : Element :=
  match n with node e _ => e end.

Definition children_of (n : Node) : list Node :=
  match n with node _ cs => cs end.

Definition with_value (s : string) (e : Element) : Element :=
  mkElement (uid e) (tagName e) (el_id e) (attributes e) (className e) s
            (innerHTML e).

Definition with_className (s : string) (e : Element) : Element :=
  mkElement (uid e) (tagName e) (el_id e) (attributes e) s (value e)
            (innerHTML e).

Definition with_innerHTML (s : string) (e : Element) : Element :=
  mkElement (uid e) (tagName e) (el_id e) (attributes e) (className e)
            (value e) s.

(** [element.getAttribute(name)]: the value, or null. *)
Fixpoint assoc (name : string) (l : list (string * string)) : option string :=
  match l with
  | [] => None
  | (k, v) :: r => if k =? name then Some v else assoc name r
  end.

Definition getAttribute (e : Element) (name : string) : option string :=
  assoc name (attributes e).

(** ** Tree order *)

(** Every node of the tree, a parent before its children, the children
    from first to last. *)
Fixpoint subtrees (n : Node) : list Node :=
  match n with
  | node _ cs => n :: flat_map subtrees cs
  end.

Definition elements (n : Node) : list Element :=
  map element_of (subtrees n).

Definition uids (n : Node) : list nat :=
  map uid (elements n).

Definition has_id (i : string) (e : Element) : bool := el_id e =? i.
Definition has_uid (u : nat) (e : Element) : bool := Nat.eqb (uid e) u.

(** The first element in tree order whose id is [i]; the empty string
    names no element. *)
Definition element_by_id (i : string) (d : Node) : option Element :=
  if i =? "" then None else find (has_id i) (elements d).

(** ** Mutation *)

(** What a property write on the object [u] makes of an element. *)
Definition written (u : Ref) (f : Element -> Element) (e : Element) : Element :=
  if has_uid u e then f e else e.

(** A property write on the object [u]: the tree keeps its shape. *)
Fixpoint update (u : Ref) (f : Element -> Element) (n : Node) : Node :=
  match n with
  | node e cs => node (written u f e) (map (update u f) cs)
  end.

(** [u.innerHTML = markup]: what [u] contained leaves the tree, and the
    markup is kept as it was assigned. The elements that the parser
    makes of the markup are not put into the tree (see the head of the
    file): no id is found in them where the markup carries none. *)
Fixpoint replace_content (u : Ref) (markup : string) (n : Node) : Node :=
  match n with
  | node e cs =>
      if has_uid u e then node (with_innerHTML markup e) []
      else node e (map (replace_content u markup) cs)
  end.

(** [u.remove()] below the root: the node leaves its parent, with all
    that it contains. *)
Fixpoint detach (u : Ref) (n : Node) : Node :=
  match n with
  | node e cs =>
      node e (flat_map (fun c => if has_uid u (element_of c) then []
                                 else [detach u c]) cs)
  end.

(** What [detach] leaves of one child. *)
Definition pruned (u : Ref) (c : Node) : list Node :=
  if has_uid u (element_of c) then [] else [detach u c].

(** ** Class tokens: [classList] *)

Fixpoint tokens_from (s : string) (token : string) : list string :=
  match s with
  | EmptyString => if token =? "" then [] else [token]
  | String c r =>
      if is_ascii_whitespace c
      then (if token =? "" then tokens_from r ""
            else token :: tokens_from r "")
      else tokens_from r (token ++ String c "")
  end.

Fixpoint mem (t : string) (l : list string) : bool :=
  match l with
  | [] => false
  | x :: r => (x =? t) || mem t r
  end.

(** An ordered set: a token counts where it first occurs. *)
Fixpoint dedupe (seen : list string) (l : list string) : list string :=
  match l with
  | [] => []
  | x :: r => if mem x seen then dedupe seen r
              else x :: dedupe (x :: seen) r
  end.

Definition token_set (class : string) : list string :=
  dedupe [] (tokens_from class "").

Definition classList_remove (token : string) (e : Element) : Element :=
  with_className
    (join " " (filter (fun t => negb (t =? token)) (token_set (className e))))
    e.

Definition classList_add (token : string) (e : Element) : Element :=
  let ts := token_set (className e) in
  with_className (join " " (if mem token ts then ts else (ts ++ [token])%list))
                 e.

(** ** What a handler leaves behind *)

(** The two functions the script hands to [setTimeout]. *)
Inductive Callback :=
| reload_page                          (* window.location.reload() *)
| hide_copied (copiedMessageSpan : Ref). (* classList.add('d-none') *)

Record Request := mkRequest {
  url : string;
  method : string;
  headers : list (string * string);
  request_body : option json }.

Inductive Effect :=
| PreventDefault
| Fetch (request : Request)
| SetTimeout (callback : Callback) (delay : nat)
| Confirm (message : string) (answer : bool)
| Alert (message : string)
| ConsoleLog (text : string) (argument : Value)
| ConsoleError (text : string) (error : Error)
| Reload.

(** The page as a handler finds it. [body] is [document.body] with all it
    contains, or nothing when the document has no body; [trace] lists
    what has been done so far, oldest first. *)
Record World := mkWorld {
  body : option Node;
  next_uid : nat;
  selection : string;
  clipboard : string;
  href : string;
  trace : list Effect }.

Definition with_body (b : option Node) (w : World) : World :=
  mkWorld b (next_uid w) (selection w) (clipboard w) (href w) (trace w).

Definition emit (e : Effect) (w : World) : World :=
  mkWorld (body w) (next_uid w) (selection w) (clipboard w) (href w)
          (trace w ++ [e])%list.

(** ** What the handler does not decide *)

Inductive Reply :=
| Unreachable                         (* fetch rejects *)
| Responds (payload : option Value).  (* the body, when it is JSON *)

Inductive CopyResult := Copied | NotCopied | CopyThrows.

Record Environment := mkEnvironment {
  server : Request -> Reply;
  user_confirms : string -> bool;
  copy_command : CopyResult }.

(** ** Computations: a state, and a normal or abrupt completion *)

Inductive Completion (A : Type) :=
| Normal (a : A)
| Throw (e : Error).
Arguments Normal {A} a.
Arguments Throw {A} e.

Definition M (A : Type) : Type := World -> Completion A * World.

Definition ret {A} (a : A) : M A := fun w => (Normal a, w).

Definition bind {A B} (c : M A) (k : A -> M B) : M B :=
  fun w => match c w with
           | (Normal a, w') => k a w'
           | (Throw e, w') => (Throw e, w')
           end.

Definition throw {A} (e : Error) : M A := fun w => (Throw e, w).

Definition try_catch {A} (block : M A) (handler : Error -> M A) : M A :=
  fun w => match block w with
           | (Normal a, w') => (Normal a, w')
           | (Throw e, w') => handler e w'
           end.

Definition try_catch_finally {A} (block : M A) (handler : Error -> M A)
           (finalizer : M unit) : M A :=
  fun w => match try_catch block handler w with
           | (c, w') =>
               match finalizer w' with
               | (Normal _, w'') => (c, w'')
               | (Throw e, w'') => (Throw e, w'')
               end
           end.

Definition lift {A} (r : Error + A) : M A :=
  match r with inl e => throw e | inr a => ret a end.

Definition effect (e : Effect) : M unit := fun w => (Normal tt, emit e w).

Definition modify_body (f : Node -> Node) : M unit :=
  fun w => (Normal tt, with_body (option_map f (body w)) w).

Declare Scope js_scope.
Delimit Scope js_scope with js.
Notation "x <- c1 ;; c2" := (bind c1 (fun x => c2))
  (at level 61, c1 at next level, right associativity) : js_scope.
Notation "c1 ;; c2" := (bind c1 (fun _ => c2))
  (at level 61, right associativity) : js_scope.
Open Scope js_scope.

(** ** The interface the script calls

    A script variable that holds an element holds the element as it was
    when it was looked up; a later write goes to the object with that
    [uid]. The script never reads a property of an object after writing
    to it, so what is read is what the object holds. *)

Definition getElementById (i : string) : M (option Element) :=
  fun w => (Normal (match body w with
                    | Some d => element_by_id i d
                    | None => None
                    end), w).

(** [r.p], where [r] may be null. *)
Definition get (p : Element -> string) (r : option Element) : M string :=
  match r with
  | Some e => ret (p e)
  | None => throw TypeError
  end.

(** [r.p = s], where [r] may be null. *)
Definition set (p : string -> Element -> Element) (r : option Element)
           (s : string) : M unit :=
  match r with
  | Some e => modify_body (update (uid e) (p s))
  | None => throw TypeError
  end.

Definition set_innerHTML (r : option Element) (markup : string) : M unit :=
  match r with
  | Some e => modify_body (replace_content (uid e) markup)
  | None => throw TypeError
  end.

Definition classList (op : string -> Element -> Element) (e : Element)
           (token : string) : M unit :=
  modify_body (update (uid e) (op token)).

(** [document.createElement(tag)]: a new object, in no tree yet. *)
Definition createElement (tag : string) : M Element :=
  fun w => (Normal (mkElement (next_uid w) tag "" [] "" "" ""),
            mkWorld (body w) (S (next_uid w)) (selection w) (clipboard w)
                    (href w) (trace w)).

(** [document.body.appendChild(e)] for an object that is in no tree. *)
Definition body_appendChild (e : Element) : M unit :=
  fun w => match body w with
           | Some (node b cs) =>
               (Normal tt, with_body (Some (node b (cs ++ [node e []])%list)) w)
           | None => (Throw TypeError, w)
           end.

Definition is_child (e : Element) (cs : list Node) : bool :=
  existsb (fun c => has_uid (uid e) (element_of c)) cs.

(** [document.body.removeChild(e)]. *)
Definition body_removeChild (e : Element) : M unit :=
  fun w => match body w with
           | Some (node b cs) =>
               if is_child e cs
               then (Normal tt,
                     with_body
                       (Some (node b (filter
                                (fun c => negb (has_uid (uid e) (element_of c)))
                                cs))) w)
               else (Throw NotFoundError, w)
           | None => (Throw TypeError, w)
           end.

(** [e.remove()]. *)
Definition remove (e : Element) : M unit :=
  fun w => match body w with
           | Some d =>
               if has_uid (uid e) (element_of d)
               then (Normal tt, with_body None w)
               else (Normal tt, with_body (Some (detach (uid e) d)) w)
           | None => (Normal tt, w)
           end.

(** [e.select()] on a text control. *)
Definition select (e : Element) : M unit :=
  fun w => (Normal tt,
            mkWorld (body w) (next_uid w) (value e) (clipboard w) (href w)
                    (trace w)).

Definition set_location_href (target : string) : M unit :=
  fun w => (Normal tt,
            mkWorld (body w) (next_uid w) (selection w) (clipboard w) target
                    (trace w)).

Definition preventDefault : M unit := effect PreventDefault.
Definition setTimeout (cb : Callback) (delay : nat) : M unit :=
  effect (SetTimeout cb delay).
Definition alert (v : Value) : M unit := effect (Alert (to_string v)).
Definition console_log (text : string) (v : Value) : M unit :=
  effect (ConsoleLog text v).
Definition console_error (text : string) (e : Error) : M unit :=
  effect (ConsoleError text e).

Section Browser.

Variable env : Environment.

Definition confirm (message : string) : M bool :=
  let answer := user_confirms env message in
  effect (Confirm message answer) ;; ret answer.

(** [fetch(url, {method, headers, body})]: the request leaves, then the
    promise settles. *)
Definition fetch (u m : string) (hs : list (string * string))
           (b : option json) : M (option Value) :=
  let request := mkRequest u m hs b in
  effect (Fetch request) ;;
  match server env request with
  | Responds payload => ret payload
  | Unreachable => throw NetworkError
  end.

(** [response.json()]. *)
Definition response_json (response : option Value) : M Value :=
  match response with
  | Some v => ret v
  | None => throw SyntaxError
  end.

(** [document.execCommand('copy')]. *)
Definition execCommand_copy : M bool :=
  fun w => match copy_command env with
           | Copied =>
               (Normal true,
                mkWorld (body w) (next_uid w) (selection w) (selection w)
                        (href w) (trace w))
           | NotCopied => (Normal false, w)
           | CopyThrows => (Throw CommandError, w)
           end.

End Browser.

End DOM.

Import DOM.
Open Scope js_scope.

(* ===================================================================== *)
(** * The handlers of script.js *)
(* ===================================================================== *)

Module Script.

(** ** The markup the handlers write *)

Definition quote : string := String (ascii_of_nat 34) EmptyString.

Definition attr (name v : string) : string := name ++ "=" ++ quote ++ v ++ quote.

(** <div class=[alert alert-KIND rounded-pill] role=[alert]>TEXT</div> *)
Definition alert_div (kind text : string) : string :=
  "<div " ++ attr "class" ("alert alert-" ++ kind ++ " rounded-pill") ++ " "
    ++ attr "role" "alert" ++ ">" ++ text ++ "</div>".

(** <div class=[spinner-border text-COLOUR] role=[status]><span
    class=[visually-hidden]>Loading...</span></div> *)
Definition spinner (colour : string) : string :=
  "<div " ++ attr "class" ("spinner-border text-" ++ colour) ++ " "
    ++ attr "role" "status" ++ "><span " ++ attr "class" "visually-hidden"
    ++ ">Loading...</span></div>".

Definition json_headers : list (string * string) :=
  [("Content-Type", "application/json")].

(** [a || b] on strings. *)
Definition or_else (a : option string) (b : string) : string :=
  match a with
  | Some s => if s =? "" then b else s
  | None => b
  end.

(** [s.split('-')], where [s] may be null. *)
Definition split_dash (s : option string) : M (list string) :=
  match s with
  | Some t => ret (split "-" t)
  | None => throw TypeError
  end.

(** [result.key]. *)
Definition field (result : Value) (key : string) : M Value :=
  lift (get_property result key).

Section Handlers.

Variable env : Environment.

(** ** Copy a contact number (lines 8 to 36) *)

Definition copy_contact_click (this : Element) : M unit :=
  let contactNumber := getAttribute this "data-contact" in
  let targetId := getAttribute this "data-target" in
  parts <- split_dash targetId ;;
  copiedMessageSpan <-
    getElementById ("copied-message-" ++ or_else (nth_error parts 1) "detail") ;;
  tempTextArea <- createElement "textarea" ;;
  let tempTextArea :=
    with_value (match contactNumber with Some s => s | None => "" end)
               tempTextArea in
  body_appendChild tempTextArea ;;
  select tempTextArea ;;
  try_catch_finally
    (execCommand_copy env ;;
     console_log "Contact number copied:" (of_attribute contactNumber) ;;
     match copiedMessageSpan with
     | Some span =>
         classList classList_remove span "d-none" ;;
         setTimeout (hide_copied (uid span)) 2000
     | None => ret tt
     end)
    (fun err => console_error "Failed to copy contact number:" err)
    (body_removeChild tempTextArea).

(** ** Submit a review (lines 42 to 85) *)

Definition review_submit : M unit :=
  preventDefault ;;
  serviceId <- (e <- getElementById "serviceIdReview" ;; get value e) ;;
  rating <- (e <- getElementById "reviewRating" ;; get value e) ;;
  comment <- (e <- getElementById "reviewComment" ;; get value e) ;;
  reviewMessageDiv <- getElementById "reviewMessage" ;;
  set_innerHTML reviewMessageDiv (spinner "primary" ++ " Submitting review...") ;;
  set with_className reviewMessageDiv "mt-3 text-center" ;;
  try_catch
    (response <-
       fetch env "/submit_review" "POST" json_headers
         (JSON_stringify
            (VObject [("service_id", VNumber (parseInt serviceId));
                      ("rating", VNumber (parseFloat rating));
                      ("comment", VString comment)])) ;;
     result <- response_json response ;;
     success <- field result "success" ;;
     if truthy success then
       message <- field result "message" ;;
       set_innerHTML reviewMessageDiv (alert_div "success" (to_string message)) ;;
       set with_className reviewMessageDiv "mt-3" ;;
       (e <- getElementById "reviewRating" ;; set with_value e "") ;;
       (e <- getElementById "reviewComment" ;; set with_value e "") ;;
       setTimeout reload_page 1500
     else
       message <- field result "message" ;;
       set_innerHTML reviewMessageDiv (alert_div "danger" (to_string message)) ;;
       set with_className reviewMessageDiv "mt-3")
    (fun error =>
       console_error "Error submitting review:" error ;;
       set_innerHTML reviewMessageDiv
         (alert_div "danger" "An unexpected error occurred.") ;;
       set with_className reviewMessageDiv "mt-3").

(** ** Submit a booking (lines 91 to 137) *)

Definition booking_submit : M unit :=
  preventDefault ;;
  serviceId <- (e <- getElementById "serviceIdBooking" ;; get value e) ;;
  bookingDate <- (e <- getElementById "bookingDate" ;; get value e) ;;
  bookingNotes <- (e <- getElementById "bookingNotes" ;; get value e) ;;
  bookingMessageDiv <- getElementById "bookingMessage" ;;
  if negb (truthy (VString bookingDate)) then
    set_innerHTML bookingMessageDiv
      (alert_div "warning" "Please select a preferred date.") ;;
    set with_className bookingMessageDiv "mt-3"
  else
    set_innerHTML bookingMessageDiv
      (spinner "success" ++ " Submitting booking request...") ;;
    set with_className bookingMessageDiv "mt-3 text-center" ;;
    try_catch
      (response <-
         fetch env "/submit_booking" "POST" json_headers
           (JSON_stringify
              (VObject [("service_id", VNumber (parseInt serviceId));
                        ("booking_date", VString bookingDate);
                        ("booking_notes", VString bookingNotes)])) ;;
       result <- response_json response ;;
       success <- field result "success" ;;
       if truthy success then
         message <- field result "message" ;;
         set_innerHTML bookingMessageDiv
           (alert_div "success" (to_string message)) ;;
         set with_className bookingMessageDiv "mt-3" ;;
         (e <- getElementById "bookingDate" ;; set with_value e "") ;;
         (e <- getElementById "bookingNotes" ;; set with_value e "")
       else
         message <- field result "message" ;;
         set_innerHTML bookingMessageDiv
           (alert_div "danger" (to_string message)) ;;
         set with_className bookingMessageDiv "mt-3")
      (fun error =>
         console_error "Error submitting booking:" error ;;
         set_innerHTML bookingMessageDiv
           (alert_div "danger" "An unexpected error occurred.") ;;
         set with_className bookingMessageDiv "mt-3").

(** ** Remove a booking (lines 143 to 172) *)

Definition remove_booking_click (this : Element) : M unit :=
  let bookingId := of_attribute (getAttribute this "data-booking-id") in
  confirmed <-
    confirm env ("Are you sure you want to remove booking ID: "
                 ++ to_string bookingId ++ "?") ;;
  if confirmed then
    try_catch
      (response <-
         fetch env "/remove_booking" "POST" json_headers
           (JSON_stringify (VObject [("booking_id", bookingId)])) ;;
       result <- response_json response ;;
       success <- field result "success" ;;
       if truthy success then
         message <- field result "message" ;;
         alert message ;;
         rowToRemove <- getElementById ("booking-row-" ++ to_string bookingId) ;;
         match rowToRemove with
         | Some row => remove row
         | None => ret tt
         end
       else
         message <- field result "message" ;;
         alert (VString ("Error: " ++ to_string message)))
      (fun error =>
         console_error "Error removing booking:" error ;;
         alert (VString "An error occurred while trying to remove the booking."))
  else ret tt.

(** ** Remove a user (lines 178 to 207) *)

Definition remove_user_click (this : Element) : M unit :=
  let userId := of_attribute (getAttribute this "data-user-id") in
  confirmed <-
    confirm env ("Are you sure you want to remove user ID: "
                 ++ to_string userId
                 ++ " and all their associated data (reviews, bookings)? This action cannot be undone.") ;;
  if confirmed then
    try_catch
      (response <-
         fetch env "/remove_user" "POST" json_headers
           (JSON_stringify (VObject [("user_id", userId)])) ;;
       result <- response_json response ;;
       success <- field result "success" ;;
       if truthy success then
         message <- field result "message" ;;
         alert message ;;
         rowToRemove <- getElementById ("user-row-" ++ to_string userId) ;;
         match rowToRemove with
         | Some row => remove row
         | None => ret tt
         end
       else
         message <- field result "message" ;;
         alert (VString ("Error: " ++ to_string message)))
      (fun error =>
         console_error "Error removing user:" error ;;
         alert (VString "An error occurred while trying to remove the user."))
  else ret tt.

(** ** Delete the own account (lines 213 to 237) *)

Definition delete_my_account_click : M unit :=
  confirmed <-
    confirm env "Are you sure you want to delete your account? This will remove all your reviews and bookings and cannot be undone." ;;
  if confirmed then
    try_catch
      (response <-
         fetch env "/delete_my_account" "POST" json_headers
           (JSON_stringify (VObject [])) ;;
       result <- response_json response ;;
       success <- field result "success" ;;
       if truthy success then
         message <- field result "message" ;;
         alert message ;;
         set_location_href "/welcome"
       else
         message <- field result "message" ;;
         alert (VString ("Error: " ++ to_string message)))
      (fun error =>
         console_error "Error deleting my account:" error ;;
         alert (VString "An error occurred while trying to delete your account."))
  else ret tt.

End Handlers.

(** ** The callbacks, when their timer fires *)

Definition run_callback (cb : Callback) : M unit :=
  match cb with
  | reload_page => effect Reload
  | hide_copied span => modify_body (update span (classList_add "d-none"))
  end.

End Script.

Import Script.

(* ===================================================================== *)
(** * What is observed of a page *)
(* ===================================================================== *)

Module Page.

(** The first node in tree order whose element has id [i]. *)
Definition node_by_id (i : string) (d : Node) : option Node :=
  if i =? "" then None
  else find (fun n => has_id i (element_of n)) (subtrees d).

Definition lookup_node (i : string) (w : World) : option Node :=
  match body w with
  | Some d => node_by_id i d
  | None => None
  end.

(** What [document.getElementById(i)] denotes in [w]. *)
Definition lookup (i : string) (w : World) : option Element :=
  match body w with
  | Some d => element_by_id i d
  | None => None
  end.

(** The page after a property write, and after a write of markup. *)
Definition write (u : Ref) (f : Element -> Element) (w : World) : World :=
  with_body (option_map (update u f) (body w)) w.

Definition write_markup (u : Ref) (markup : string) (w : World) : World :=
  with_body (option_map (replace_content u markup) (body w)) w.

(** The object [u] contains no element. *)
Definition childless (u : Ref) (w : World) : Prop :=
  forall d x, body w = Some d -> In x (subtrees d) ->
              has_uid u (element_of x) = true -> children_of x = [].

(** Every element of the document, in tree order. *)
Definition all_elements (w : World) : list Element :=
  match body w with
  | Some d => elements d
  | None => []
  end.

Fixpoint distinct (l : list nat) : bool :=
  match l with
  | [] => true
  | x :: r => negb (existsb (Nat.eqb x) r) && distinct r
  end.

(** Object identity: no two elements of the document are the same
    object, and [createElement] has not handed out their numbers yet. *)
Definition well_formed (w : World) : bool :=
  let us := map uid (all_elements w) in
  distinct us && forallb (fun u => Nat.ltb u (next_uid w)) us.

(** The requests among the effects. *)
Fixpoint requests_of (t : list Effect) : list Request :=
  match t with
  | [] => []
  | Fetch r :: rest => r :: requests_of rest
  | _ :: rest => requests_of rest
  end.

(** The timers among the effects. *)
Fixpoint timers_of (t : list Effect) : list (Callback * nat) :=
  match t with
  | [] => []
  | SetTimeout cb ms :: rest => (cb, ms) :: timers_of rest
  | _ :: rest => timers_of rest
  end.

(** The server answered with JSON whose [success] is true in the sense of
    the test [if (result.success)]. *)
Definition succeeds (result : Value) : bool :=
  match result with
  | VObject fields => truthy (lookup_field "success" fields)
  | _ => false
  end.

Definition message_of (result : Value) : string :=
  match result with
  | VObject fields => to_string (lookup_field "message" fields)
  | _ => "undefined"
  end.

(** The transport or the reading of the response throws: [fetch]
    rejects, the body is not JSON, or it is the JSON null, which has no
    [success] to read. *)
Definition fails (r : Reply) : bool :=
  match r with
  | Unreachable => true
  | Responds None => true
  | Responds (Some VNull) => true
  | Responds (Some VUndefined) => true
  | Responds (Some _) => false
  end.

(** A character that the HTML parser or the serialiser of [innerHTML]
    does not take as it stands: NUL and CR are rewritten on the way in,
    a tag starts at < and a character reference at &, and > is escaped
    on the way out. *)
Definition markup_character (c : ascii) : bool :=
  let n := code c in
  ((n =? 0) || (n =? 13) || (n =? 38) || (n =? 60) || (n =? 62))%nat.

(** Plain text: no tag and no character reference starts in it, so the
    parser makes one text node of it and no element; and [innerHTML]
    reads it back as it stands (the no-break space, which is written
    back as a character reference, is left out as well). *)
Fixpoint plain_text (s : string) : bool :=
  match s with
  | EmptyString => true
  | String c r =>
      negb (markup_character c)
      && negb (match r with
               | String c2 _ => is_str_whitespace2 c c2
               | EmptyString => false
               end)
      && plain_text r
  end.

(** The message of an answer of the server is plain text. *)
Definition plain_reply (r : Reply) : bool :=
  match r with
  | Responds (Some result) => plain_text (message_of result)
  | _ => true
  end.

(** A form control, by its local name: its [value] property reads a
    string. *)
Definition is_control (e : Element) : bool :=
  (tagName e =? "input") || (tagName e =? "textarea")
  || (tagName e =? "select").

(** What the receiver reads under [key] in the body of a request. *)
Definition received (key : string) (r : Request) : option Value :=
  match request_body r with
  | Some (JObject members) => option_map JSON_parse (member key members)
  | _ => None
  end.

(** The id of the table row that belongs to a removal button: the
    prefix, then the identifier the button carries. *)
Definition row_id (prefix attribute : string) (this : Element) : string :=
  prefix ++ to_string (of_attribute (getAttribute this attribute)).

(** No numeral at the start, for [parseInt]: after white space and a
    sign, the text does not begin with a decimal digit. *)
Definition is_digit (c : ascii) : bool :=
  ((48 <=? code c) && (code c <=? 57))%nat.

Definition body_of_numeral (s : string) : string :=
  snd (read_sign (trim_start s)).

Definition no_integer_prefix (s : string) : bool :=
  match body_of_numeral s with
  | String c _ => negb (is_digit c)
  | EmptyString => true
  end.

(** No numeral at the start, for [parseFloat]: after white space and a
    sign comes neither Infinity, nor a digit, nor a point and a digit. *)
Definition no_decimal_prefix (s : string) : bool :=
  let t := body_of_numeral s in
  negb (prefix "Infinity" t) &&
  match t with
  | String "." (String c _) => negb (is_digit c)
  | String "." EmptyString => true
  | String c _ => negb (is_digit c)
  | EmptyString => true
  end.

End Page.

Import Page.

(* ===================================================================== *)
(** * A page of the application, and three environments *)
(* ===================================================================== *)

Module Sample.

Definition plain (u : nat) (tag : string) : Element :=
  mkElement u tag "" [] "" "" "".

Definition control (u : nat) (tag i v : string) : Element :=
  mkElement u tag i [] "form-control" v "".

Definition copied_span : Element :=
  mkElement 1 "span" "copied-message-1" [] "text-success d-none" "" "".

Definition copy_button : Element :=
  mkElement 2 "button" ""
            [("data-contact", "555-1234"); ("data-target", "contact-1")]
            "btn copy-contact-btn" "" "".

Definition serviceIdReview : Element := control 4 "input" "serviceIdReview" "3".
Definition reviewRating (v : string) : Element :=
  control 5 "input" "reviewRating" v.
Definition reviewComment : Element :=
  control 6 "textarea" "reviewComment" "Great".
Definition reviewMessage : Element :=
  mkElement 7 "div" "reviewMessage" [] "mt-3" "" "".

Definition serviceIdBooking : Element :=
  control 9 "input" "serviceIdBooking" "7".
Definition bookingDate (v : string) : Element :=
  control 10 "input" "bookingDate" v.
Definition bookingNotes : Element := control 11 "textarea" "bookingNotes" "x".
Definition bookingMessage : Element :=
  mkElement 12 "div" "bookingMessage" [] "mt-3" "" "".

Definition remove_booking_button (u : nat) (booking : string) : Element :=
  mkElement u "button" "" [("data-booking-id", booking)]
            "btn remove-booking-btn" "" "".

Definition remove_user_button (u : nat) (user : string) : Element :=
  mkElement u "button" "" [("data-user-id", user)]
            "btn remove-user-btn" "" "".

(** A table row with one cell that holds the removal button. *)
Definition table_row (u : nat) (i : string) (button : Element) : Node :=
  node (mkElement u "tr" i [] "" "" "")
       [node (plain (u + 1) "td") [node button []]].

Definition booking_row_5 : Node :=
  table_row 14 "booking-row-5" (remove_booking_button 16 "5").
Definition booking_row_6 : Node :=
  table_row 17 "booking-row-6" (remove_booking_button 19 "6").
Definition user_row_2 : Node :=
  table_row 20 "user-row-2" (remove_user_button 22 "2").

Definition document_body (rating date : string) : Node :=
  node (plain 0 "body")
       [ node copied_span [];
         node copy_button [];
         node (mkElement 3 "form" "reviewForm" [] "" "" "")
              [ node serviceIdReview [];
                node (reviewRating rating) [];
                node reviewComment [] ];
         node reviewMessage [];
         node (mkElement 8 "form" "bookingForm" [] "" "" "")
              [ node serviceIdBooking [];
                node (bookingDate date) [];
                node bookingNotes [] ];
         node bookingMessage [];
         node (plain 13 "table") [booking_row_5; booking_row_6; user_row_2];
         node (mkElement 23 "button" "deleteMyAccountBtn" [] "btn" "" "") [] ].

Definition page (rating date : string) : World :=
  mkWorld (Some (document_body rating date)) 24 "" "" "/profile" [].

Definition thanks : Value :=
  VObject [("success", VBool true); ("message", VString "Thanks")].

(** The server accepts, the user confirms, the copy command works. *)
Definition agreeable : Environment :=
  mkEnvironment (fun _ => Responds (Some thanks)) (fun _ => true) Copied.

(** The network is down and the copy command throws. *)
Definition offline : Environment :=
  mkEnvironment (fun _ => Unreachable) (fun _ => true) CopyThrows.

(** The user declines every question. *)
Definition reluctant : Environment :=
  mkEnvironment (fun _ => Responds (Some thanks)) (fun _ => false) Copied.

End Sample.

(* ===================================================================== *)
(** * More of what is observed, and more cases *)
(* ===================================================================== *)

Module Behaviour.

(** The server answered with JSON that has properties to read and whose
    [success] is false in the sense of the test [if (result.success)]:
    an object without a true [success], or a value that is no object. *)
Definition refuses (result : Value) : bool :=
  match result with
  | VUndefined | VNull => false
  | VObject fields => negb (truthy (lookup_field "success" fields))
  | _ => true
  end.

(** The id under which the copy handler looks for the indicator of a
    button whose data-target is [t]: the second piece of [t] between
    dashes, or detail. *)
Definition indicator_id (t : string) : string :=
  "copied-message-" ++ or_else (nth_error (split "-" t) 1) "detail".

(** The text the copy handler puts into its textarea. *)
Definition contact_of (this : Element) : string :=
  match getAttribute this "data-contact" with
  | Some s => s
  | None => ""
  end.

Fixpoint no_dash (s : string) : bool :=
  match s with
  | EmptyString => true
  | String c r => negb (Ascii.eqb c "-") && no_dash r
  end.

(** What [JSON.stringify] and then the receiver make of a number. *)
Definition number_received (n : Number) : Value :=
  match n with
  | Finite m e => VNumber (Finite m e)
  | _ => VNull
  end.

(** The page after [e.remove()]. *)
Definition after_remove (e : Element) (w : World) : World := snd (remove e w).


(** The request a booking submission makes of the three values it read
    (lines 109 to 119). *)
Definition booking_request (serviceId date notes : string) : Request :=
  mkRequest "/submit_booking" "POST" json_headers
    (JSON_stringify
       (VObject [("service_id", VNumber (parseInt serviceId));
                 ("booking_date", VString date);
                 ("booking_notes", VString notes)])).

Fixpoint no_space (s : string) : bool :=
  match s with
  | EmptyString => true
  | String c r => negb (is_ascii_whitespace c) && no_space r
  end.

(** A class token: not empty, and without white space. *)
Definition is_token (t : string) : bool := negb (t =? "") && no_space t.

(** The class tokens of an element, as its [classList] lists them. *)
Definition tokens_of (e : Element) : list string := token_set (className e).

(** A document with a body and nothing in it. *)
Definition blank_page : World :=
  mkWorld (Some (node (Sample.plain 0 "body") [])) 1 "" "" "/" [].

Definition sorry : Value :=
  VObject [("success", VBool false); ("message", VString "Log in first")].

(** The server refuses, the user confirms, the copy command reports
    that it did not copy. *)
Definition refusing : Environment :=
  mkEnvironment (fun _ => Responds (Some sorry)) (fun _ => true) NotCopied.

End Behaviour.

Import Behaviour.

(* ===================================================================== *)
(** * Facts about lists and trees *)
(* ===================================================================== *)

Section NodeInduction.

Variable P : Node -> Prop.
Hypothesis step : forall e cs, Forall P cs -> P (node e cs).

Fixpoint Node_induction (n : Node) : P n :=
  match n with
  | node e cs =>
      step e cs
        ((fix all (l : list Node) : Forall P l :=
            match l with
            | [] => Forall_nil P
            | c :: r => Forall_cons c (Node_induction c) (all r)
            end) cs)
  end.

End NodeInduction.

Lemma find_app {A} (p : A -> bool) (l1 l2 : list A) :
  find p (l1 ++ l2)%list
  = match find p l1 with Some x => Some x | None => find p l2 end.
Proof.
  induction l1 as [|a l1 IH]; simpl; [reflexivity|].
  destruct (p a); [reflexivity | exact IH].
Qed.

Lemma find_map {A B} (g : A -> B) (p : B -> bool) (l : list A) :
  find p (map g l) = option_map g (find (fun a => p (g a)) l).
Proof.
  induction l as [|a l IH]; simpl; [reflexivity|].
  destruct (p (g a)); [reflexivity | exact IH].
Qed.

Lemma find_ext_in {A} (p q : A -> bool) (l : list A) :
  (forall a, In a l -> p a = q a) -> find p l = find q l.
Proof.
  induction l as [|a l IH]; simpl; intros H; [reflexivity|].
  rewrite (H a (or_introl eq_refl)).
  destruct (q a); [reflexivity|]. apply IH. intros b Hb. apply H. now right.
Qed.

Lemma find_none_iff {A} (p : A -> bool) (l : list A) :
  find p l = None <-> (forall a, In a l -> p a = false).
Proof.
  split.
  - intros H a Ha. exact (find_none p l H a Ha).
  - induction l as [|a l IH]; simpl; intros H; [reflexivity|].
    rewrite (H a (or_introl eq_refl)). apply IH. intros b Hb. apply H. now right.
Qed.

Lemma flat_map_map {A B C} (g : A -> B) (h : B -> list C) (l : list A) :
  flat_map h (map g l) = flat_map (fun a => h (g a)) l.
Proof.
  induction l as [|a l IH]; simpl; [reflexivity | now rewrite IH].
Qed.

Lemma map_flat_map {A B C} (g : B -> C) (h : A -> list B) (l : list A) :
  map g (flat_map h l) = flat_map (fun a => map g (h a)) l.
Proof.
  induction l as [|a l IH]; simpl; [reflexivity|].
  now rewrite map_app, IH.
Qed.

Lemma flat_map_ext_Forall {A B} (g h : A -> list B) (l : list A) :
  Forall (fun a => g a = h a) l -> flat_map g l = flat_map h l.
Proof.
  induction 1 as [|a l Ha _ IH]; simpl; [reflexivity | now rewrite Ha, IH].
Qed.

Lemma map_ext_Forall_eq {A B} (g h : A -> B) (l : list A) :
  Forall (fun a => g a = h a) l -> map g l = map h l.
Proof.
  induction 1 as [|a l Ha _ IH]; simpl; [reflexivity | now rewrite Ha, IH].
Qed.

Lemma distinct_NoDup (l : list nat) : distinct l = true -> NoDup l.
Proof.
  induction l as [|x r IH]; simpl; intros H; [constructor|].
  apply andb_prop in H. destruct H as [Hx Hr].
  constructor; [|now apply IH].
  intros Hin. apply negb_true_iff in Hx.
  assert (existsb (Nat.eqb x) r = true) as E.
  { apply existsb_exists. exists x. split; [exact Hin | apply Nat.eqb_refl]. }
  congruence.
Qed.

(** In a list without repetition under [f], [f] decides the member. *)
Lemma NoDup_map_injective {A B} (f : A -> B) (l : list A) (a b : A) :
  NoDup (map f l) -> In a l -> In b l -> f a = f b -> a = b.
Proof.
  induction l as [|x l IH]; simpl; intros ND Ha Hb E; [contradiction|].
  inversion ND as [|? ? Hx ND']; subst.
  destruct Ha as [-> | Ha], Hb as [-> | Hb].
  - reflexivity.
  - exfalso. apply Hx. rewrite E. now apply in_map.
  - exfalso. apply Hx. rewrite <- E. now apply in_map.
  - now apply IH.
Qed.

(** ** Tree order *)

Lemma elements_node e cs :
  elements (node e cs) = e :: flat_map elements cs.
Proof.
  unfold elements. simpl. f_equal. apply map_flat_map.
Qed.

Lemma uids_node e cs : uids (node e cs) = uid e :: flat_map uids cs.
Proof.
  unfold uids. rewrite elements_node. simpl. f_equal. apply map_flat_map.
Qed.

Lemma subtrees_self (n : Node) : In n (subtrees n).
Proof. destruct n. simpl. now left. Qed.

Lemma element_by_id_node_by_id i d :
  element_by_id i d = option_map element_of (node_by_id i d).
Proof.
  unfold element_by_id, node_by_id, elements.
  destruct (i =? ""); [reflexivity|]. apply find_map.
Qed.

Lemma in_elements_uids e n : In e (elements n) -> In (uid e) (uids n).
Proof. unfold uids. apply in_map. Qed.

Lemma in_subtrees_elements x n :
  In x (subtrees n) -> In (element_of x) (elements n).
Proof. unfold elements. apply in_map. Qed.

(** A subtree of a subtree is a subtree. *)
Lemma subtrees_trans : forall n x y,
  In x (subtrees n) -> In y (subtrees x) -> In y (subtrees n).
Proof.
  intros n. induction n as [e cs IH] using Node_induction.
  intros x y Hx Hy. simpl in Hx. destruct Hx as [<- | Hx]; [exact Hy|].
  simpl. right. apply in_flat_map in Hx. destruct Hx as [c [Hc Hx]].
  apply in_flat_map. exists c. split; [exact Hc|].
  rewrite Forall_forall in IH. exact (IH c Hc x y Hx Hy).
Qed.

(** ** Property writes keep the shape *)

Lemma subtrees_update u f : forall n,
  subtrees (update u f n) = map (update u f) (subtrees n).
Proof.
  induction n as [e cs IH] using Node_induction.
  simpl. f_equal. rewrite flat_map_map, map_flat_map.
  now apply flat_map_ext_Forall.
Qed.

Lemma element_of_update u f n :
  element_of (update u f n) = written u f (element_of n).
Proof. destruct n. reflexivity. Qed.

Lemma elements_update u f n :
  elements (update u f n) = map (written u f) (elements n).
Proof.
  unfold elements. rewrite subtrees_update, !map_map.
  apply map_ext. intros x. apply element_of_update.
Qed.

Lemma written_id u f e :
  (forall x, el_id (f x) = el_id x) -> el_id (written u f e) = el_id e.
Proof. intros H. unfold written. destruct (has_uid u e); auto. Qed.

Lemma written_uid u f e :
  (forall x, uid (f x) = uid x) -> uid (written u f e) = uid e.
Proof. intros H. unfold written. destruct (has_uid u e); auto. Qed.

Lemma uids_update u f n :
  (forall x, uid (f x) = uid x) -> uids (update u f n) = uids n.
Proof.
  intros H. unfold uids. rewrite elements_update, map_map.
  apply map_ext. intros e. now apply written_uid.
Qed.

Lemma node_by_id_update i u f d :
  (forall x, el_id (f x) = el_id x) ->
  node_by_id i (update u f d) = option_map (update u f) (node_by_id i d).
Proof.
  intros H. unfold node_by_id. destruct (i =? ""); [reflexivity|].
  rewrite subtrees_update, find_map. f_equal.
  apply find_ext_in. intros a _. unfold has_id.
  now rewrite element_of_update, written_id.
Qed.

Lemma element_by_id_update i u f d :
  (forall x, el_id (f x) = el_id x) ->
  element_by_id i (update u f d) = option_map (written u f) (element_by_id i d).
Proof.
  intros H. rewrite !element_by_id_node_by_id, node_by_id_update by exact H.
  destruct (node_by_id i d); simpl; [|reflexivity].
  now rewrite element_of_update.
Qed.

(** ** Writing markup *)

(** Where the object has no children, [innerHTML] is one more property. *)
Lemma replace_content_leaf u s : forall n,
  (forall x, In x (subtrees n) -> has_uid u (element_of x) = true ->
             children_of x = []) ->
  replace_content u s n = update u (with_innerHTML s) n.
Proof.
  induction n as [e cs IH] using Node_induction. intros H. simpl.
  unfold written. destruct (has_uid u e) eqn:E.
  - specialize (H (node e cs) (subtrees_self _) E). simpl in H. now subst cs.
  - f_equal. apply map_ext_Forall_eq. rewrite Forall_forall in *.
    intros c Hc. apply IH; [exact Hc|]. intros x Hx. apply H.
    simpl. right. apply in_flat_map. now exists c.
Qed.

(** Markup written into [u] creates no id that was not there. *)
Lemma replace_content_ids u s : forall n e,
  In e (elements (replace_content u s n)) ->
  exists e0, In e0 (elements n) /\ el_id e = el_id e0.
Proof.
  induction n as [e cs IH] using Node_induction. intros x Hx.
  simpl in Hx. destruct (has_uid u e) eqn:E.
  - rewrite elements_node in Hx. simpl in Hx. destruct Hx as [<- | []].
    exists e. split; [rewrite elements_node; now left | reflexivity].
  - rewrite elements_node in Hx. destruct Hx as [<- | Hx].
    + exists e. split; [rewrite elements_node; now left | reflexivity].
    + rewrite flat_map_map in Hx. apply in_flat_map in Hx.
      destruct Hx as [c [Hc Hx]]. rewrite Forall_forall in IH.
      destruct (IH c Hc x Hx) as [e0 [H0 Hid]].
      exists e0. split; [|exact Hid]. rewrite elements_node. right.
      apply in_flat_map. now exists c.
Qed.

Lemma replace_content_find_none u s i n :
  find (has_id i) (elements n) = None ->
  find (has_id i) (elements (replace_content u s n)) = None.
Proof.
  rewrite !find_none_iff. intros H e He.
  destruct (replace_content_ids u s n e He) as [e0 [H0 Hid]].
  unfold has_id in *. rewrite Hid. now apply H.
Qed.

Lemma NoDup_app_l {A} (l1 l2 : list A) : NoDup (l1 ++ l2) -> NoDup l1.
Proof.
  induction l1 as [|a l1 IH]; simpl; intros H; [constructor|].
  inversion H as [|? ? Ha H']; subst. constructor; [|now apply IH].
  intros Hin. apply Ha. apply in_or_app. now left.
Qed.

Lemma NoDup_app_r {A} (l1 l2 : list A) : NoDup (l1 ++ l2) -> NoDup l2.
Proof.
  induction l1 as [|a l1 IH]; simpl; intros H; [exact H|].
  inversion H; subst. now apply IH.
Qed.

Lemma NoDup_app_disjoint {A} (l1 l2 : list A) (a : A) :
  NoDup (l1 ++ l2) -> In a l1 -> In a l2 -> False.
Proof.
  induction l1 as [|x l1 IH]; simpl; intros H H1 H2; [contradiction|].
  inversion H as [|? ? Hx H']; subst. destruct H1 as [-> | H1].
  - apply Hx. apply in_or_app. now right.
  - now apply IH.
Qed.

(** The element found under an id is still found there, with the markup,
    after the markup has replaced what it contained. *)
Lemma replace_content_found s i : forall n m,
  NoDup (uids n) ->
  find (has_id i) (elements n) = Some m ->
  find (has_id i) (elements (replace_content (uid m) s n))
  = Some (with_innerHTML s m).
Proof.
  induction n as [e cs IH] using Node_induction. intros m ND Hm.
  rewrite elements_node in Hm. simpl in Hm. rewrite uids_node in ND.
  destruct (has_id i e) eqn:Ei.
  - injection Hm as <-. simpl. unfold has_uid at 1. rewrite Nat.eqb_refl.
    rewrite elements_node. simpl. unfold has_id in *. simpl. now rewrite Ei.
  - assert (has_uid (uid m) e = false) as Eu.
    { unfold has_uid. apply Nat.eqb_neq. intros E.
      inversion ND as [|? ? Hx _]; subst. apply Hx. rewrite E.
      apply find_some in Hm. destruct Hm as [Hm _].
      apply in_flat_map in Hm. destruct Hm as [c [Hc Hm]].
      apply in_flat_map. exists c. split; [exact Hc|].
      now apply in_elements_uids. }
    simpl. rewrite Eu, elements_node. simpl. rewrite Ei.
    rewrite flat_map_map.
    inversion ND as [|? ? _ ND']; subst. clear ND Eu Ei.
    induction cs as [|c r IHr]; simpl in *; [discriminate|].
    inversion IH as [|? ? IHc IHrest]; subst.
    rewrite find_app in Hm. rewrite find_app.
    destruct (find (has_id i) (elements c)) as [m'|] eqn:Ec.
    + injection Hm as ->. rewrite (IHc m (NoDup_app_l _ _ ND') eq_refl). reflexivity.
    + rewrite (replace_content_find_none _ _ _ _ Ec).
      apply IHr; [exact IHrest | exact Hm | exact (NoDup_app_r _ _ ND')].
Qed.

(* ===================================================================== *)
(** * Running a handler, one statement at a time *)
(* ===================================================================== *)

Lemma run_bind {A B} (c : M A) (k : A -> M B) w :
  bind c k w = match c w with
               | (Normal a, w') => k a w'
               | (Throw e, w') => (Throw e, w')
               end.
Proof. reflexivity. Qed.

Lemma run_ret {A} (a : A) w : ret a w = (Normal a, w).
Proof. reflexivity. Qed.

Lemma run_throw {A} (e : Error) w : @throw A e w = (Throw e, w).
Proof. reflexivity. Qed.

Lemma run_try_catch {A} (c : M A) h w :
  try_catch c h w = match c w with
                    | (Normal a, w') => (Normal a, w')
                    | (Throw e, w') => h e w'
                    end.
Proof. reflexivity. Qed.

Lemma run_getElementById i w : getElementById i w = (Normal (lookup i w), w).
Proof. reflexivity. Qed.

Lemma run_effect e w : effect e w = (Normal tt, emit e w).
Proof. reflexivity. Qed.

Lemma run_get p e w : get p (Some e) w = (Normal (p e), w).
Proof. reflexivity. Qed.

Lemma run_set p e s w :
  set p (Some e) s w = (Normal tt, write (uid e) (p s) w).
Proof. reflexivity. Qed.

Lemma run_set_innerHTML e s w :
  set_innerHTML (Some e) s w = (Normal tt, write_markup (uid e) s w).
Proof. reflexivity. Qed.

Lemma run_confirm env message w :
  confirm env message w
  = (Normal (user_confirms env message),
     emit (Confirm message (user_confirms env message)) w).
Proof. reflexivity. Qed.

Lemma run_fetch env u m hs b w :
  fetch env u m hs b w
  = match server env (mkRequest u m hs b) with
    | Responds payload => (Normal payload, emit (Fetch (mkRequest u m hs b)) w)
    | Unreachable => (Throw NetworkError, emit (Fetch (mkRequest u m hs b)) w)
    end.
Proof.
  unfold fetch. rewrite run_bind, run_effect.
  destruct (server env _); reflexivity.
Qed.

Lemma run_set_location_href target w :
  set_location_href target w
  = (Normal tt,
     mkWorld (body w) (next_uid w) (selection w) (clipboard w) target (trace w)).
Proof. reflexivity. Qed.

(** ** The page after an effect or a write *)

Lemma lookup_emit i e w : lookup i (emit e w) = lookup i w.
Proof. reflexivity. Qed.

Lemma lookup_node_emit i e w : lookup_node i (emit e w) = lookup_node i w.
Proof. reflexivity. Qed.

Lemma trace_emit e w : trace (emit e w) = (trace w ++ [e])%list.
Proof. reflexivity. Qed.

Lemma trace_write u f w : trace (write u f w) = trace w.
Proof. reflexivity. Qed.

Lemma trace_write_markup u s w : trace (write_markup u s w) = trace w.
Proof. reflexivity. Qed.

Lemma href_emit e w : href (emit e w) = href w.
Proof. reflexivity. Qed.

Lemma href_write u f w : href (write u f w) = href w.
Proof. reflexivity. Qed.

Lemma body_emit e w : body (emit e w) = body w.
Proof. reflexivity. Qed.

Lemma well_formed_emit e w : well_formed (emit e w) = well_formed w.
Proof. reflexivity. Qed.

Lemma well_formed_NoDup w d :
  well_formed w = true -> body w = Some d -> NoDup (uids d).
Proof.
  unfold well_formed, all_elements. intros H E. rewrite E in H.
  apply andb_prop in H. destruct H as [H _]. now apply distinct_NoDup.
Qed.

Lemma lookup_write i u f w :
  (forall x, el_id (f x) = el_id x) ->
  lookup i (write u f w) = option_map (written u f) (lookup i w).
Proof.
  intros H. unfold lookup, write. destruct (body w); simpl; [|reflexivity].
  now apply element_by_id_update.
Qed.

Lemma well_formed_write u f w :
  (forall x, uid (f x) = uid x) ->
  well_formed (write u f w) = well_formed w.
Proof.
  intros H. unfold well_formed, all_elements, write.
  destruct (body w) as [d|]; simpl; [|reflexivity].
  fold (uids (update u f d)). fold (uids d). now rewrite uids_update.
Qed.

Lemma lookup_write_markup i s m w :
  well_formed w = true -> lookup i w = Some m ->
  lookup i (write_markup (uid m) s w) = Some (with_innerHTML s m).
Proof.
  intros WF H. unfold lookup, write_markup in *.
  destruct (body w) as [d|] eqn:E; [|discriminate]. simpl.
  unfold element_by_id in *. destruct (i =? ""); [discriminate|].
  apply replace_content_found; [|exact H]. now apply (well_formed_NoDup w).
Qed.

Lemma lookup_has_id i w e : lookup i w = Some e -> el_id e = i.
Proof.
  unfold lookup, element_by_id. destruct (body w); [|discriminate].
  destruct (i =? ""); [discriminate|]. intros H.
  apply find_some in H. destruct H as [_ H]. now apply String.eqb_eq.
Qed.

Lemma lookup_in i w e : lookup i w = Some e -> In e (all_elements w).
Proof.
  unfold lookup, all_elements, element_by_id. destruct (body w); [|discriminate].
  destruct (i =? ""); [discriminate|]. intros H.
  now apply find_some in H.
Qed.

(** Two ids name two objects. *)
Lemma lookup_distinct i j w a b :
  well_formed w = true -> lookup i w = Some a -> lookup j w = Some b ->
  i <> j -> has_uid (uid a) b = false.
Proof.
  intros WF Ha Hb Hij. unfold has_uid. apply Nat.eqb_neq. intros E.
  apply Hij. rewrite <- (lookup_has_id _ _ _ Ha), <- (lookup_has_id _ _ _ Hb).
  f_equal. apply lookup_in in Ha. apply lookup_in in Hb.
  unfold well_formed in WF. apply andb_prop in WF. destruct WF as [WF _].
  apply distinct_NoDup in WF.
  exact (NoDup_map_injective uid _ _ _ WF Ha Hb (eq_sym E)).
Qed.

Lemma has_uid_self e : has_uid (uid e) e = true.
Proof. unfold has_uid. apply Nat.eqb_refl. Qed.

(** An element found under an id, with no child: nothing is lost when
    markup is written into it. *)
Lemma lookup_node_childless i w m :
  well_formed w = true -> lookup_node i w = Some (node m []) ->
  childless (uid m) w.
Proof.
  intros WF H d x Hd Hx Hu. unfold lookup_node in H. rewrite Hd in H.
  unfold node_by_id in H. destruct (i =? ""); [discriminate|].
  apply find_some in H. destruct H as [Hm _].
  assert (x = node m []) as ->; [|reflexivity].
  apply (NoDup_map_injective (fun n => uid (element_of n)) (subtrees d));
    [ | exact Hx | exact Hm | ].
  - rewrite <- map_map. exact (well_formed_NoDup w d WF Hd).
  - simpl. unfold has_uid in Hu. now apply Nat.eqb_eq in Hu.
Qed.

Lemma lookup_node_lookup i w n :
  lookup_node i w = Some n -> lookup i w = Some (element_of n).
Proof.
  unfold lookup_node, lookup. destruct (body w); [|discriminate].
  rewrite element_by_id_node_by_id. now intros ->.
Qed.

Lemma write_markup_childless u s w :
  childless u w -> write_markup u s w = write u (with_innerHTML s) w.
Proof.
  intros H. unfold write_markup, write. destruct (body w) as [d|] eqn:E;
    simpl; [|reflexivity].
  rewrite replace_content_leaf; [reflexivity|]. intros x. now apply H.
Qed.

Lemma childless_emit u e w : childless u w -> childless u (emit e w).
Proof. exact (fun H => H). Qed.

Lemma childless_write u v f w :
  (forall x, uid (f x) = uid x) ->
  childless u w -> childless u (write v f w).
Proof.
  intros Hf H d x Hd Hx Hu. unfold write in Hd. simpl in Hd.
  destruct (body w) as [d0|] eqn:E; [|discriminate]. simpl in Hd.
  injection Hd as <-. rewrite subtrees_update in Hx.
  apply in_map_iff in Hx. destruct Hx as [x0 [<- Hx0]].
  rewrite element_of_update in Hu. unfold has_uid in Hu.
  rewrite written_uid in Hu by exact Hf.
  specialize (H d0 x0 E Hx0 Hu). destruct x0. simpl in *. now subst.
Qed.

(** ** Removing a node *)

Lemma detach_node u e cs :
  detach u (node e cs) = node e (flat_map (pruned u) cs).
Proof. reflexivity. Qed.

Lemma in_subtrees_uids x n :
  In x (subtrees n) -> In (uid (element_of x)) (uids n).
Proof. intros H. now apply in_elements_uids, in_subtrees_elements. Qed.

Lemma in_children_uids x cs :
  In x (flat_map subtrees cs) -> In (uid (element_of x)) (flat_map uids cs).
Proof.
  intros H. apply in_flat_map in H. destruct H as [c [Hc Hx]].
  apply in_flat_map. exists c. split; [exact Hc | now apply in_subtrees_uids].
Qed.

Lemma root_uid_in n : In (uid (element_of n)) (uids n).
Proof. apply in_subtrees_uids, subtrees_self. Qed.

(** An object that is not in the tree is not removed from it. *)
Lemma detach_absent u : forall n, ~ In u (uids n) -> detach u n = n.
Proof.
  induction n as [e cs IH] using Node_induction. intros Hu.
  rewrite detach_node. f_equal. rewrite uids_node in Hu.
  assert (~ In u (flat_map uids cs)) as Hcs by (intros H; apply Hu; now right).
  clear Hu. induction cs as [|c r IHr]; simpl; [reflexivity|].
  inversion IH as [|? ? IHc IHrest]; subst. simpl in Hcs.
  assert (~ In u (uids c)) as Hc by (intros H; apply Hcs, in_or_app; now left).
  assert (~ In u (flat_map uids r)) as Hr
      by (intros H; apply Hcs, in_or_app; now right).
  unfold pruned at 1. destruct (has_uid u (element_of c)) eqn:E.
  - exfalso. apply Hc. unfold has_uid in E. apply Nat.eqb_eq in E.
    rewrite <- E. apply root_uid_in.
  - simpl. rewrite (IHc Hc). f_equal. now apply IHr.
Qed.

Lemma pruned_absent u cs :
  ~ In u (flat_map uids cs) -> flat_map (pruned u) cs = cs.
Proof.
  induction cs as [|c r IH]; simpl; intros H; [reflexivity|].
  assert (~ In u (uids c)) as Hc by (intros X; apply H, in_or_app; now left).
  unfold pruned at 1. destruct (has_uid u (element_of c)) eqn:E.
  - exfalso. apply Hc. unfold has_uid in E. apply Nat.eqb_eq in E.
    rewrite <- E. apply root_uid_in.
  - simpl. rewrite (detach_absent u c Hc). f_equal. apply IH.
    intros X. apply H, in_or_app. now right.
Qed.

(** In a tree without repetition, two nodes with one identity are one. *)
Lemma same_uid_same_node n x y :
  NoDup (uids n) -> In x (subtrees n) -> In y (subtrees n) ->
  uid (element_of x) = uid (element_of y) -> x = y.
Proof.
  intros ND Hx Hy E.
  apply (NoDup_map_injective (fun n => uid (element_of n)) (subtrees n));
    try assumption.
  rewrite <- map_map. exact ND.
Qed.

(** Removing [x] from below the root takes the elements of [x] out of
    the tree order, and nothing else. *)
Lemma detach_split : forall n x,
  NoDup (uids n) -> In x (subtrees n) ->
  has_uid (uid (element_of x)) (element_of n) = false ->
  exists l1 l2,
    elements n = (l1 ++ elements x ++ l2)%list /\
    elements (detach (uid (element_of x)) n) = (l1 ++ l2)%list.
Proof.
  induction n as [e cs IH] using Node_induction. intros x ND Hx Hroot.
  simpl in Hx. destruct Hx as [<- | Hx].
  { simpl in Hroot. unfold has_uid in Hroot. now rewrite Nat.eqb_refl in Hroot. }
  rewrite uids_node in ND. inversion ND as [|? ? _ ND']; subst. clear ND Hroot.
  set (u := uid (element_of x)).
  assert (exists l1 l2,
             flat_map elements cs = (l1 ++ elements x ++ l2)%list /\
             flat_map elements (flat_map (pruned u) cs) = (l1 ++ l2)%list)
    as [l1 [l2 [H1 H2]]].
  { induction cs as [|c r IHr]; simpl in *; [contradiction|].
    inversion IH as [|? ? IHc IHrest]; subst.
    apply in_app_or in Hx. destruct Hx as [Hx | Hx].
    - assert (~ In u (flat_map uids r)) as Hr.
      { intros X. apply (NoDup_app_disjoint _ _ u ND'); [|exact X].
        now apply in_subtrees_uids. }
      rewrite (pruned_absent u r Hr). unfold pruned.
      destruct (has_uid u (element_of c)) eqn:E.
      + assert (x = c) as ->.
        { apply (same_uid_same_node c); [exact (NoDup_app_l _ _ ND') | exact Hx
                                        | apply subtrees_self |].
          unfold has_uid in E. apply Nat.eqb_eq in E. now rewrite E. }
        exists [], (flat_map elements r). split; reflexivity.
      + destruct (IHc x (NoDup_app_l _ _ ND') Hx E) as [a [b [Ha Hb]]].
        exists a, (b ++ flat_map elements r)%list. simpl. fold u in Hb.
        rewrite Ha, Hb. rewrite <- !app_assoc. split; reflexivity.
    - assert (~ In u (uids c)) as Hc.
      { intros X. apply (NoDup_app_disjoint _ _ u ND'); [exact X|].
        now apply in_children_uids. }
      destruct (IHr IHrest Hx (NoDup_app_r _ _ ND')) as [a [b [Ha Hb]]].
      exists (elements c ++ a)%list, b. unfold pruned at 1.
      destruct (has_uid u (element_of c)) eqn:E.
      + exfalso. apply Hc. unfold has_uid in E. apply Nat.eqb_eq in E.
        rewrite <- E. apply root_uid_in.
      + simpl. rewrite (detach_absent u c Hc), Ha, Hb.
        rewrite <- !app_assoc. split; reflexivity. }
  exists (e :: l1), l2. rewrite detach_node, !elements_node, H1, H2.
  split; reflexivity.
Qed.

(** [row.remove()] on the page, for the node found under an id. *)
Lemma remove_found i w x :
  well_formed w = true -> lookup_node i w = Some x ->
  exists w' l1 l2,
    remove (element_of x) w = (Normal tt, w') /\
    trace w' = trace w /\ href w' = href w /\
    all_elements w = (l1 ++ elements x ++ l2)%list /\
    all_elements w' = (l1 ++ l2)%list.
Proof.
  intros WF H. unfold lookup_node in H. unfold remove, all_elements.
  destruct (body w) as [d|] eqn:E; [|discriminate].
  pose proof (well_formed_NoDup w d WF E) as ND.
  unfold node_by_id in H. destruct (i =? ""); [discriminate|].
  apply find_some in H. destruct H as [Hx _].
  destruct (has_uid (uid (element_of x)) (element_of d)) eqn:Er.
  - assert (x = d) as ->.
    { apply (same_uid_same_node d); [exact ND | exact Hx | apply subtrees_self |].
      unfold has_uid in Er. apply Nat.eqb_eq in Er. now rewrite Er. }
    exists (with_body None w), [], []. simpl. rewrite app_nil_r.
    repeat split; reflexivity.
  - destruct (detach_split d x ND Hx Er) as [l1 [l2 [H1 H2]]].
    exists (with_body (Some (detach (uid (element_of x)) d)) w), l1, l2.
    simpl. repeat split; assumption.
Qed.

(** ** The statements that remain, and the tactics that run them *)

Lemma run_set_none p s w : set p None s w = (Throw TypeError, w).
Proof. reflexivity. Qed.

Lemma run_set_innerHTML_none s w :
  set_innerHTML None s w = (Throw TypeError, w).
Proof. reflexivity. Qed.

Lemma run_get_none p w : get p None w = (Throw TypeError, w).
Proof. reflexivity. Qed.

Lemma run_response_json v w : response_json (Some v) w = (Normal v, w).
Proof. reflexivity. Qed.

Lemma run_response_not_json w :
  response_json None w = (Throw SyntaxError, w).
Proof. reflexivity. Qed.

Lemma run_field fs k w :
  field (VObject fs) k w = (Normal (lookup_field k fs), w).
Proof. reflexivity. Qed.

Lemma run_field_null k w : field VNull k w = (Throw TypeError, w).
Proof. reflexivity. Qed.

Lemma run_field_undefined k w : field VUndefined k w = (Throw TypeError, w).
Proof. reflexivity. Qed.

Lemma requests_of_app a b :
  requests_of (a ++ b) = (requests_of a ++ requests_of b)%list.
Proof.
  induction a as [|x a IH]; simpl; [reflexivity|].
  destruct x; simpl; now rewrite ?IH.
Qed.

Lemma timers_of_app a b :
  timers_of (a ++ b) = (timers_of a ++ timers_of b)%list.
Proof.
  induction a as [|x a IH]; simpl; [reflexivity|].
  destruct x; simpl; now rewrite ?IH.
Qed.

(** A write to the object found under [j] leaves what is found under
    another id as it was. *)
Lemma lookup_unwritten i j f w m :
  well_formed w = true -> lookup j w = Some m -> i <> j ->
  option_map (written (uid m) f) (lookup i w) = lookup i w.
Proof.
  intros WF Hm Hij. destruct (lookup i w) as [e|] eqn:He; [|reflexivity].
  pose proof (lookup_distinct _ _ _ _ _ WF Hm He (not_eq_sym Hij)) as Hu.
  simpl. unfold written. now rewrite Hu.
Qed.

Ltac childless_tac :=
  repeat first [ assumption
               | apply childless_emit
               | apply childless_write; [intros; reflexivity|] ].

(** One statement of the handler at the head of the goal. *)
Ltac run_base :=
  first
    [ rewrite run_bind
    | rewrite run_getElementById
    | rewrite run_effect
    | rewrite run_get
    | rewrite run_set
    | rewrite run_set_innerHTML
    | rewrite run_set_none
    | rewrite run_set_innerHTML_none
    | rewrite run_get_none
    | rewrite write_markup_childless by childless_tac
    | rewrite run_ret
    | rewrite run_throw
    | rewrite run_try_catch
    | rewrite run_confirm
    | rewrite run_fetch
    | rewrite run_response_json
    | rewrite run_response_not_json
    | rewrite run_field
    | rewrite run_field_null
    | rewrite run_field_undefined
    | rewrite run_set_location_href
    | rewrite lookup_emit
    | match goal with
      | H : lookup ?i ?w = _ |- context [lookup ?i ?w] => rewrite H
      | H : server ?env ?r = _ |- context [server ?env ?r] => rewrite H
      | H : forall q, user_confirms ?env q = _
        |- context [user_confirms ?env ?r] => rewrite (H r)
      | H : forall q, server ?env q = _
        |- context [server ?env ?r] => rewrite (H r)
      | H : Nat.eqb ?a ?b = _ |- context [Nat.eqb ?a ?b] => rewrite H
      | H : truthy ?v = _ |- context [truthy ?v] => rewrite H
      end
    | progress cbv beta iota ].

(** What is found under an id after the writes so far. *)
Ltac observe_step :=
  first
    [ rewrite lookup_emit
    | rewrite lookup_write by (intros; reflexivity)
    | match goal with
      | H : lookup ?i ?w = _ |- context [lookup ?i ?w] => rewrite H
      | H : Nat.eqb ?a ?b = _ |- context [Nat.eqb ?a ?b] => rewrite H
      end
    | rewrite Nat.eqb_refl
    | progress unfold written, has_uid
    | progress cbn [option_map uid with_value with_className with_innerHTML] ].

Ltac observe := repeat observe_step.

Ltac run_step := first [ observe_step | run_base ].

Ltac run := repeat run_step.
Ltac explore := repeat run_base.

(** A case distinction the handler makes on what it cannot know. *)
Ltac branch :=
  match goal with
  | |- context [match server ?env ?q with _ => _ end] =>
      destruct (server env q) as [|[?result|]]
  | |- context [if truthy ?v then _ else _] => destruct (truthy v)
  | |- context [set _ (lookup ?i ?w) _] => destruct (lookup i w)
  | |- context [get_property ?v ?k] => destruct v; cbn [get_property]
  end.

Ltac traces :=
  cbn [trace emit write write_markup with_body];
  rewrite <- ?app_assoc; cbn [app].

Ltac handlers :=
  unfold review_submit, booking_submit, remove_booking_click,
    remove_user_click, delete_my_account_click, preventDefault, setTimeout,
    alert, console_error.

(** Where the ids differ, the objects differ. *)
Ltac apart WF Ha Hb :=
  let H := fresh "Hapart" in
  pose proof (lookup_distinct _ _ _ _ _ WF Ha Hb ltac:(discriminate)) as H;
  unfold has_uid in H.

(* ===================================================================== *)
(** * The built-ins on examples *)
(* ===================================================================== *)

Example parseInt_with_unit : parseInt "  42px" = Finite 42 0.
Proof. reflexivity. Qed.

Example parseInt_hexadecimal : parseInt "0x1F" = Finite 31 0.
Proof. reflexivity. Qed.

Example parseInt_bare_prefix : parseInt "0x" = NaN.
Proof. reflexivity. Qed.

Example parseFloat_rating : parseFloat "4.5" = Finite 45 (-1).
Proof. reflexivity. Qed.

Example parseFloat_exponent : parseFloat "1.5e3x" = Finite 15 2.
Proof. reflexivity. Qed.

Example parseFloat_point_only : parseFloat "." = NaN.
Proof. reflexivity. Qed.

Example parseFloat_infinity : parseFloat "-Infinity" = Infinity true.
Proof. reflexivity. Qed.

(** The parsing rounds to the nearest double: beyond 2^53 not every
    integer is one, a long fraction is cut, and what lies beyond the
    largest double is an infinity. *)
Example parseInt_beyond_2_53 :
  parseInt "9007199254740993" = Finite 9007199254740992 0.
Proof. vm_compute. reflexivity. Qed.

Example parseInt_thirty_digits :
  parseInt "123456789012345678901234567890" = Finite 12345678901234568 13.
Proof. vm_compute. reflexivity. Qed.

Example parseFloat_long_fraction :
  parseFloat "0.1000000000000000055511151231257827" = Finite 1 (-1).
Proof. vm_compute. reflexivity. Qed.

Example parseFloat_seventeen_digits :
  parseFloat "0.30000000000000004" = Finite 30000000000000004 (-17).
Proof. vm_compute. reflexivity. Qed.

Example parseFloat_largest :
  parseFloat "1.7976931348623157e308" = Finite 17976931348623157 292.
Proof. vm_compute. reflexivity. Qed.

Example parseFloat_beyond_largest :
  parseFloat "1.7976931348623159e308" = Infinity false.
Proof. vm_compute. reflexivity. Qed.

Example parseFloat_overflow : parseFloat "-1e400" = Infinity true.
Proof. vm_compute. reflexivity. Qed.

Example parseFloat_smallest : parseFloat "3e-324" = Finite 5 (-324).
Proof. vm_compute. reflexivity. Qed.

Example parseFloat_underflow : parseFloat "2e-324" = Finite 0 0.
Proof. vm_compute. reflexivity. Qed.

(** White space beyond ASCII is skipped as well: a no-break space
    (bytes 194 160), a line separator (226 128 168), a byte order mark
    (239 187 191). *)
Example parseFloat_no_break_space :
  parseFloat (String "194" (String "160" "4.5")) = Finite 45 (-1).
Proof. vm_compute. reflexivity. Qed.

Example parseInt_line_separator :
  parseInt (String "226" (String "128" (String "168" " 42"))) = Finite 42 0.
Proof. vm_compute. reflexivity. Qed.

Example parseFloat_byte_order_mark :
  parseFloat (String "239" (String "187" (String "191" "-.5e1")))
  = Finite (-5) 0.
Proof. vm_compute. reflexivity. Qed.

(** An accented letter (195 169) is no white space. *)
Example parseFloat_letter :
  parseFloat (String "195" (String "169" "4.5")) = NaN.
Proof. reflexivity. Qed.

(** The markup of a message: a tag or a character reference makes a
    text other than plain. *)
Example plain_text_sentence : plain_text "Review submitted!" = true.
Proof. reflexivity. Qed.

Example plain_text_tag :
  plain_text "<input id=reviewRating>" = false.
Proof. reflexivity. Qed.

Example plain_text_reference : plain_text "Fish & chips" = false.
Proof. reflexivity. Qed.

Example number_to_string_fraction : number_to_string (Finite 45 (-1)) = "4.5".
Proof. reflexivity. Qed.

Example number_to_string_large : number_to_string (Finite 1 21) = "1e+21".
Proof. reflexivity. Qed.

Example number_to_string_small : number_to_string (Finite 123 (-5)) = "0.00123".
Proof. reflexivity. Qed.

Example split_target : split "-" "contact-5" = ["contact"; "5"].
Proof. reflexivity. Qed.

Example classList_remove_hidden :
  className (classList_remove "d-none" Sample.copied_span) = "text-success".
Proof. reflexivity. Qed.

Example stringify_nan :
  JSON_stringify (VObject [("rating", VNumber NaN)])
  = Some (JObject [("rating", JNull)]).
Proof. reflexivity. Qed.

(** The indicator is hidden again when its timer fires. *)
Example hide_copied_fires :
  option_map className
    (lookup "copied-message-1"
       (snd (run_callback (hide_copied 1)
               (write 1 (classList_remove "d-none") (Sample.page "4.5" "")))))
  = Some "text-success d-none".
Proof. reflexivity. Qed.

Lemma not_digit_decimal c : is_digit c = false -> decimal_digit c = None.
Proof. unfold is_digit, decimal_digit. now intros ->. Qed.

(** [parseInt] gives NaN where no numeral starts the text. *)
Lemma parseInt_no_prefix s : no_integer_prefix s = true -> parseInt s = NaN.
Proof.
  unfold no_integer_prefix, body_of_numeral, parseInt.
  destruct (read_sign (trim_start s)) as [negative t]. simpl.
  destruct t as [|c t]; [reflexivity|].
  intros H. apply negb_true_iff in H.
  assert (strip_hex_prefix (String c t) = None) as ->.
  { destruct t as [|c2 t]; simpl.
    - destruct c as [[] [] [] [] [] [] [] []]; reflexivity.
    - destruct c as [[] [] [] [] [] [] [] []]; try reflexivity.
      discriminate H. }
  simpl. now rewrite (not_digit_decimal c H).
Qed.

(** [parseFloat] gives NaN where no numeral starts the text. *)
Lemma parseFloat_no_prefix s : no_decimal_prefix s = true -> parseFloat s = NaN.
Proof.
  unfold no_decimal_prefix, body_of_numeral, parseFloat.
  destruct (read_sign (trim_start s)) as [negative t]. cbn [snd].
  intros H. apply andb_prop in H. destruct H as [Hinf H].
  apply negb_true_iff in Hinf. rewrite Hinf.
  destruct t as [|c t]; [reflexivity|]. clear Hinf.
  destruct c as [[] [] [] [] [] [] [] []];
    try discriminate H; try reflexivity.
  destruct t as [|c2 t]; [reflexivity|].
  apply negb_true_iff in H. cbn [digits_prefix decimal_digit].
  change (decimal_digit "."%char) with (@None Z). cbv beta iota.
  cbn [digits_prefix]. rewrite (not_digit_decimal c2 H). reflexivity.
Qed.

(* ===================================================================== *)
(** * The properties of the handlers *)
(* ===================================================================== *)

Lemma digits_prefix_digit c t :
  is_digit c = true ->
  exists d ds rest, digits_prefix decimal_digit (String c t) = (d :: ds, rest).
Proof.
  intros H. assert (exists d, decimal_digit c = Some d) as [d Hd].
  { unfold is_digit in H. unfold decimal_digit. rewrite H. eauto. }
  simpl. rewrite Hd.
  destruct (digits_prefix decimal_digit t) as [ds rest]. eauto.
Qed.

(** Rounding gives a double or an infinity. *)
Lemma to_double_number negative m e : to_double negative m e <> NaN.
Proof.
  unfold to_double. destruct (m =? 0)%Z; [discriminate|].
  destruct (_ <? _)%Z; [discriminate|]. destruct (_ <? _)%Z; [discriminate|].
  destruct (decimal_fraction m e) as [n d].
  destruct (nearest_double n d) as [[M E]|]; [|discriminate].
  destruct (M =? 0)%Z; [discriminate|].
  destruct (shortest_decimal M E). discriminate.
Qed.

(** And only there: the texts on which [parseFloat] gives NaN are the
    texts that no numeral starts. *)
Lemma parseFloat_nan_no_prefix s :
  parseFloat s = NaN -> no_decimal_prefix s = true.
Proof.
  unfold no_decimal_prefix, body_of_numeral, parseFloat.
  destruct (read_sign (trim_start s)) as [negative t]. cbn [snd].
  destruct (prefix "Infinity" t); [discriminate|]. cbn [negb andb].
  destruct t as [|c t]; [reflexivity|].
  destruct (is_digit c) eqn:Ec.
  - destruct (digits_prefix_digit c t Ec) as [d [ds [rest ->]]].
    destruct (match rest with String "."%char r => _ | _ => _ end).
    simpl. intros H. now apply to_double_number in H.
  - intros H.
    destruct c as [[] [] [] [] [] [] [] []]; try reflexivity;
      try discriminate Ec.
    destruct t as [|c2 t]; [reflexivity|].
    destruct (is_digit c2) eqn:E2; [|reflexivity]. exfalso.
    cbn [digits_prefix decimal_digit] in H.
    change (decimal_digit "."%char) with (@None Z) in H. cbv beta iota in H.
    destruct (digits_prefix_digit c2 t E2) as [d [ds [rest E]]].
    rewrite E in H. simpl in H. now apply to_double_number in H.
Qed.

(** ** Booking submission *)

(** C1. A booking submission whose date field is empty shows the warning
    in the booking message area and returns: the only effect is that the
    native submission is prevented, so no request leaves the page. *)
Theorem booking_without_date_warns : forall env w s d n m,
  well_formed w = true ->
  lookup "serviceIdBooking" w = Some s ->
  lookup "bookingDate" w = Some d ->
  value d = "" ->
  lookup "bookingNotes" w = Some n ->
  lookup "bookingMessage" w = Some m ->
  exists w',
    booking_submit env w = (Normal tt, w') /\
    trace w' = (trace w ++ [PreventDefault])%list /\
    requests_of (trace w') = requests_of (trace w) /\
    lookup "bookingMessage" w'
    = Some (with_className "mt-3"
              (with_innerHTML
                 ("<div class=" ++ dq ++ "alert alert-warning rounded-pill" ++ dq
                  ++ " role=" ++ dq ++ "alert" ++ dq
                  ++ ">Please select a preferred date.</div>") m)).
Proof.
  intros env w s d n m WF Hs Hd Hv Hn Hm.
  handlers. run. rewrite Hv. cbn [truthy String.eqb negb]. run.
  eexists. split; [reflexivity|]. traces.
  split; [reflexivity|]. split.
  - rewrite requests_of_app. simpl. apply app_nil_r.
  - rewrite lookup_write by (intros; reflexivity).
    rewrite (lookup_write_markup _ _ m) by assumption.
    run. reflexivity.
Qed.

Lemma booking_without_date_warns_witness :
  exists w',
    booking_submit Sample.agreeable (Sample.page "4.5" "") = (Normal tt, w') /\
    trace w' = [PreventDefault] /\
    requests_of (trace w') = [] /\
    lookup "bookingMessage" w'
    = Some (with_className "mt-3"
              (with_innerHTML
                 ("<div class=" ++ dq ++ "alert alert-warning rounded-pill" ++ dq
                  ++ " role=" ++ dq ++ "alert" ++ dq
                  ++ ">Please select a preferred date.</div>")
                 Sample.bookingMessage)).
Proof.
  apply (booking_without_date_warns
           Sample.agreeable (Sample.page "4.5" "") Sample.serviceIdBooking
           (Sample.bookingDate "") Sample.bookingNotes Sample.bookingMessage);
    reflexivity.
Defined.



(** ** Review submission *)



(** C7, as the code has it. A review whose rating (or service id) does
    not start with a numeral is not held back: the one request to
    /submit_review is sent whatever the fields hold; the parsing gives
    NaN, and [JSON.stringify] writes NaN as null, so the receiver reads
    null under that key. A numeral starts, after white space and a sign,
    with a digit; for the rating also with a point and a digit, or with
    the word Infinity. *)
Theorem review_unparsed_number_is_sent_as_null : forall env w s r c m,
  lookup "serviceIdReview" w = Some s ->
  lookup "reviewRating" w = Some r ->
  lookup "reviewComment" w = Some c ->
  lookup "reviewMessage" w = Some m ->
  exists req,
    requests_of (trace (snd (review_submit env w)))
    = (requests_of (trace w) ++ [req])%list /\
    url req = "/submit_review" /\
    (no_decimal_prefix (value r) = true ->
     parseFloat (value r) = NaN /\ received "rating" req = Some VNull) /\
    (no_integer_prefix (value s) = true ->
     parseInt (value s) = NaN /\ received "service_id" req = Some VNull).
Proof.
  intros env w s r c m Hs Hr Hc Hm.
  exists (mkRequest "/submit_review" "POST" json_headers
            (JSON_stringify
               (VObject [("service_id", VNumber (parseInt (value s)));
                         ("rating", VNumber (parseFloat (value r)));
                         ("comment", VString (value c))]))).
  split; [|split; [reflexivity|split]].
  - handlers. explore. unfold response_json, field, lift.
    repeat (branch; explore);
      cbn [snd]; traces; rewrite requests_of_app; reflexivity.
  - intros H. pose proof (parseFloat_no_prefix _ H) as E. split; [exact E|].
    unfold received, JSON_stringify. cbn [request_body serialize]. rewrite E.
    destruct (parseInt (value s)); reflexivity.
  - intros H. pose proof (parseInt_no_prefix _ H) as E. split; [exact E|].
    unfold received, JSON_stringify. cbn [request_body serialize]. rewrite E.
    destruct (parseFloat (value r)); reflexivity.
Qed.

Lemma review_unparsed_number_is_sent_as_null_witness :
  exists req,
    requests_of (trace (snd (review_submit Sample.offline
                                           (Sample.page "abc" ""))))
    = [req] /\
    url req = "/submit_review" /\
    parseFloat "abc" = NaN /\
    received "rating" req = Some VNull.
Proof.
  destruct (review_unparsed_number_is_sent_as_null
              Sample.offline (Sample.page "abc" "") Sample.serviceIdReview
              (Sample.reviewRating "abc") Sample.reviewComment
              Sample.reviewMessage eq_refl eq_refl eq_refl eq_refl)
    as [req [Hsent [Hurl [Hrating _]]]].
  exists req. split; [exact Hsent|]. split; [exact Hurl|].
  apply Hrating. reflexivity.
Defined.

(** C7, as the claim words it, fails: with the rating abc the parsing
    gives NaN, and what the request carries under rating is null, which
    is not the number NaN. *)
Lemma review_nan_is_not_forwarded_as_is :
  exists req,
    requests_of (trace (snd (review_submit Sample.offline
                                           (Sample.page "abc" ""))))
    = [req] /\
    parseFloat "abc" = NaN /\
    received "rating" req = Some VNull /\
    received "rating" req <> Some (VNumber NaN).
Proof.
  eexists. split; [reflexivity|]. split; [reflexivity|].
  split; [reflexivity|]. vm_compute. discriminate.
Qed.

(** ** Removal *)

(** C3. Where the user declines the confirmation, a removal (of a
    booking, of a user, of the own account) ends there: the question is
    the only effect, no request is sent and the document is as it was. *)
Theorem declined_removal_does_nothing : forall env,
  (forall q, user_confirms env q = false) ->
  forall w this,
    (exists w' q,
        remove_booking_click env this w = (Normal tt, w') /\
        trace w' = (trace w ++ [Confirm q false])%list /\
        requests_of (trace w') = requests_of (trace w) /\
        body w' = body w) /\
    (exists w' q,
        remove_user_click env this w = (Normal tt, w') /\
        trace w' = (trace w ++ [Confirm q false])%list /\
        requests_of (trace w') = requests_of (trace w) /\
        body w' = body w) /\
    (exists w' q,
        delete_my_account_click env w = (Normal tt, w') /\
        trace w' = (trace w ++ [Confirm q false])%list /\
        requests_of (trace w') = requests_of (trace w) /\
        body w' = body w).
Proof.
  intros env No w this.
  repeat split; handlers; run; do 2 eexists;
    (split; [reflexivity|]); traces; (split; [reflexivity|]);
    (split; [|reflexivity]); rewrite requests_of_app; apply app_nil_r.
Qed.

Lemma declined_removal_does_nothing_witness :
  (exists w' q,
      remove_booking_click Sample.reluctant
        (Sample.remove_booking_button 16 "5") (Sample.page "4.5" "")
      = (Normal tt, w') /\
      trace w' = [Confirm q false] /\
      requests_of (trace w') = [] /\
      body w' = Some (Sample.document_body "4.5" "")) /\
  (exists w' q,
      remove_user_click Sample.reluctant
        (Sample.remove_user_button 22 "2") (Sample.page "4.5" "")
      = (Normal tt, w') /\
      trace w' = [Confirm q false] /\
      requests_of (trace w') = [] /\
      body w' = Some (Sample.document_body "4.5" "")) /\
  (exists w' q,
      delete_my_account_click Sample.reluctant (Sample.page "4.5" "")
      = (Normal tt, w') /\
      trace w' = [Confirm q false] /\
      requests_of (trace w') = [] /\
      body w' = Some (Sample.document_body "4.5" "")).
Proof.
  destruct (declined_removal_does_nothing
              Sample.reluctant (fun _ => eq_refl) (Sample.page "4.5" "")
              (Sample.remove_booking_button 16 "5")) as [B _].
  destruct (declined_removal_does_nothing
              Sample.reluctant (fun _ => eq_refl) (Sample.page "4.5" "")
              (Sample.remove_user_button 22 "2")) as [_ [U D]].
  exact (conj B (conj U D)).
Defined.

(** C4. Where the user confirms and the server answers with success, the
    removal of a booking (of a user) takes out of the document the row
    found under booking-row-ID (user-row-ID), with what the row contains:
    the elements before it and after it in the document stay, unchanged
    and in their order. *)
Theorem successful_removal_removes_the_row : forall env result,
  (forall q, user_confirms env q = true) ->
  (forall req, server env req = Responds (Some result)) ->
  succeeds result = true ->
  forall w this row,
    well_formed w = true ->
    (lookup_node (row_id "booking-row-" "data-booking-id" this) w = Some row ->
     exists w' before after q req,
       remove_booking_click env this w = (Normal tt, w') /\
       trace w' = (trace w ++ [Confirm q true; Fetch req;
                               Alert (message_of result)])%list /\
       all_elements w = (before ++ elements row ++ after)%list /\
       all_elements w' = (before ++ after)%list) /\
    (lookup_node (row_id "user-row-" "data-user-id" this) w = Some row ->
     exists w' before after q req,
       remove_user_click env this w = (Normal tt, w') /\
       trace w' = (trace w ++ [Confirm q true; Fetch req;
                               Alert (message_of result)])%list /\
       all_elements w = (before ++ elements row ++ after)%list /\
       all_elements w' = (before ++ after)%list).
Proof.
  intros env result Yes Srv Hok w this row WF.
  destruct result as [| | | | | |fields]; try discriminate Hok. simpl in Hok.
  split; intros Hrow;
    pose proof (lookup_node_lookup _ _ _ Hrow) as Hl;
    unfold row_id in *; handlers; run;
    match goal with
    | |- context [remove (element_of row) ?W] =>
        destruct (remove_found _ W row WF Hrow)
          as [w' [l1 [l2 [Hrun [Htrace [_ [H1 H2]]]]]]]
    end;
    rewrite Hrun; exists w', l1, l2; do 2 eexists;
    (split; [reflexivity|]); (split; [|split; assumption]);
    rewrite Htrace; traces; reflexivity.
Qed.

Lemma successful_removal_removes_the_row_witness :
  (exists w' before after q req,
      remove_booking_click Sample.agreeable
        (Sample.remove_booking_button 16 "5") (Sample.page "4.5" "")
      = (Normal tt, w') /\
      trace w' = [Confirm q true; Fetch req; Alert "Thanks"] /\
      all_elements (Sample.page "4.5" "")
      = (before ++ elements Sample.booking_row_5 ++ after)%list /\
      all_elements w' = (before ++ after)%list) /\
  (exists w' before after q req,
      remove_user_click Sample.agreeable
        (Sample.remove_user_button 22 "2") (Sample.page "4.5" "")
      = (Normal tt, w') /\
      trace w' = [Confirm q true; Fetch req; Alert "Thanks"] /\
      all_elements (Sample.page "4.5" "")
      = (before ++ elements Sample.user_row_2 ++ after)%list /\
      all_elements w' = (before ++ after)%list).
Proof.
  split.
  - apply (successful_removal_removes_the_row
             Sample.agreeable Sample.thanks (fun _ => eq_refl)
             (fun _ => eq_refl) eq_refl (Sample.page "4.5" "")
             (Sample.remove_booking_button 16 "5") Sample.booking_row_5
             eq_refl).
    reflexivity.
  - apply (successful_removal_removes_the_row
             Sample.agreeable Sample.thanks (fun _ => eq_refl)
             (fun _ => eq_refl) eq_refl (Sample.page "4.5" "")
             (Sample.remove_user_button 22 "2") Sample.user_row_2
             eq_refl).
    reflexivity.
Defined.

(** C10. Where the user confirms and the server answers with success but
    no element carries the row id, the handler still shows the message of
    the server and completes normally, and the document is as it was. *)
Theorem successful_removal_without_row : forall env result,
  (forall q, user_confirms env q = true) ->
  (forall req, server env req = Responds (Some result)) ->
  succeeds result = true ->
  forall w this,
    (lookup (row_id "booking-row-" "data-booking-id" this) w = None ->
     exists w' q req,
       remove_booking_click env this w = (Normal tt, w') /\
       trace w' = (trace w ++ [Confirm q true; Fetch req;
                               Alert (message_of result)])%list /\
       body w' = body w) /\
    (lookup (row_id "user-row-" "data-user-id" this) w = None ->
     exists w' q req,
       remove_user_click env this w = (Normal tt, w') /\
       trace w' = (trace w ++ [Confirm q true; Fetch req;
                               Alert (message_of result)])%list /\
       body w' = body w).
Proof.
  intros env result Yes Srv Hok w this.
  destruct result as [| | | | | |fields]; try discriminate Hok. simpl in Hok.
  split; intros Hrow; unfold row_id in *; handlers; run;
    do 3 eexists; (split; [reflexivity|]); traces; split; reflexivity.
Qed.

Lemma successful_removal_without_row_witness :
  (exists w' q req,
      remove_booking_click Sample.agreeable
        (Sample.remove_booking_button 16 "77") (Sample.page "4.5" "")
      = (Normal tt, w') /\
      trace w' = [Confirm q true; Fetch req; Alert "Thanks"] /\
      body w' = Some (Sample.document_body "4.5" "")) /\
  (exists w' q req,
      remove_user_click Sample.agreeable
        (Sample.remove_user_button 22 "77") (Sample.page "4.5" "")
      = (Normal tt, w') /\
      trace w' = [Confirm q true; Fetch req; Alert "Thanks"] /\
      body w' = Some (Sample.document_body "4.5" "")).
Proof.
  split.
  - apply (successful_removal_without_row
             Sample.agreeable Sample.thanks (fun _ => eq_refl)
             (fun _ => eq_refl) eq_refl (Sample.page "4.5" "")
             (Sample.remove_booking_button 16 "77")).
    reflexivity.
  - apply (successful_removal_without_row
             Sample.agreeable Sample.thanks (fun _ => eq_refl)
             (fun _ => eq_refl) eq_refl (Sample.page "4.5" "")
             (Sample.remove_user_button 22 "77")).
    reflexivity.
Defined.

(** C8. A confirmed deletion of the own account sends one request, to
    /delete_my_account, whose body is the empty JSON object; and where
    the server answers with success, the location of the window becomes
    /welcome. *)
Theorem self_deletion_request_and_redirect : forall env w,
  (forall q, user_confirms env q = true) ->
  (exists req,
      requests_of (trace (snd (delete_my_account_click env w)))
      = (requests_of (trace w) ++ [req])%list /\
      url req = "/delete_my_account" /\
      request_body req = Some (JObject [])) /\
  (forall result,
      (forall req, server env req = Responds (Some result)) ->
      succeeds result = true ->
      exists w',
        delete_my_account_click env w = (Normal tt, w') /\
        href w' = "/welcome" /\
        body w' = body w).
Proof.
  intros env w Yes. split.
  - exists (mkRequest "/delete_my_account" "POST" json_headers
                      (Some (JObject []))).
    split; [|split; reflexivity].
    handlers. explore.
    change (JSON_stringify (VObject [])) with (Some (JObject [])).
    unfold response_json, field, lift.
    repeat (branch; explore);
      cbn [snd]; traces; rewrite requests_of_app; reflexivity.
  - intros result Srv Hok.
    destruct result as [| | | | | |fields]; try discriminate Hok. simpl in Hok.
    handlers. run. eexists. repeat split; reflexivity.
Qed.

Lemma self_deletion_request_and_redirect_witness :
  (exists req,
      requests_of (trace (snd (delete_my_account_click
                                 Sample.agreeable (Sample.page "4.5" ""))))
      = [req] /\
      url req = "/delete_my_account" /\
      request_body req = Some (JObject [])) /\
  (exists w',
      delete_my_account_click Sample.agreeable (Sample.page "4.5" "")
      = (Normal tt, w') /\
      href w' = "/welcome" /\
      body w' = Some (Sample.document_body "4.5" "")).
Proof.
  destruct (self_deletion_request_and_redirect
              Sample.agreeable (Sample.page "4.5" "") (fun _ => eq_refl))
    as [Hsent Hgo].
  split; [exact Hsent|].
  exact (Hgo Sample.thanks (fun _ => eq_refl) eq_refl).
Defined.

(** ** Failure of the transport *)

Lemma review_transport_failure env w s r c m :
  (forall req, fails (server env req) = true) ->
  well_formed w = true ->
  lookup "serviceIdReview" w = Some s ->
  lookup "reviewRating" w = Some r ->
  lookup "reviewComment" w = Some c ->
  lookup_node "reviewMessage" w = Some (node m []) ->
  exists w' req err,
    review_submit env w = (Normal tt, w') /\
    trace w' = (trace w ++ [PreventDefault; Fetch req;
                            ConsoleError "Error submitting review:" err])%list /\
    timers_of (trace w') = timers_of (trace w) /\
    lookup "reviewMessage" w'
    = Some (with_className "mt-3"
              (with_innerHTML
                 ("<div class=" ++ dq ++ "alert alert-danger rounded-pill" ++ dq
                  ++ " role=" ++ dq ++ "alert" ++ dq
                  ++ ">An unexpected error occurred.</div>") m)) /\
    (forall i, i <> "reviewMessage" -> lookup i w' = lookup i w) /\
    href w' = href w.
Proof.
  intros Fails WF Hs Hr Hc Hnode.
  pose proof (lookup_node_lookup _ _ _ Hnode) as Hm. simpl in Hm.
  pose proof (lookup_node_childless _ _ _ WF Hnode) as Hleaf.
  handlers. run.
  match goal with
  | |- context [server env ?q] =>
      pose proof (Fails q) as F; destruct (server env q) as [|[[]|]];
      try discriminate F
  end; run;
    do 3 eexists; (split; [reflexivity|]); traces;
    (split; [reflexivity|]);
    (split; [rewrite timers_of_app; apply app_nil_r|]);
    (split; [observe; reflexivity|]);
    (split; [|reflexivity]); intros i Hi;
    repeat first [ rewrite lookup_emit
                 | rewrite lookup_write by (intros; reflexivity) ];
    rewrite !(lookup_unwritten i "reviewMessage") by assumption; reflexivity.
Qed.

Lemma booking_transport_failure env w s d n m :
  (forall req, fails (server env req) = true) ->
  well_formed w = true ->
  lookup "serviceIdBooking" w = Some s ->
  lookup "bookingDate" w = Some d ->
  value d <> "" ->
  lookup "bookingNotes" w = Some n ->
  lookup_node "bookingMessage" w = Some (node m []) ->
  exists w' req err,
    booking_submit env w = (Normal tt, w') /\
    trace w' = (trace w ++ [PreventDefault; Fetch req;
                            ConsoleError "Error submitting booking:" err])%list /\
    timers_of (trace w') = timers_of (trace w) /\
    lookup "bookingMessage" w'
    = Some (with_className "mt-3"
              (with_innerHTML
                 ("<div class=" ++ dq ++ "alert alert-danger rounded-pill" ++ dq
                  ++ " role=" ++ dq ++ "alert" ++ dq
                  ++ ">An unexpected error occurred.</div>") m)) /\
    (forall i, i <> "bookingMessage" -> lookup i w' = lookup i w) /\
    href w' = href w.
Proof.
  intros Fails WF Hs Hd Hv Hn Hnode.
  pose proof (lookup_node_lookup _ _ _ Hnode) as Hm. simpl in Hm.
  pose proof (lookup_node_childless _ _ _ WF Hnode) as Hleaf.
  apply String.eqb_neq in Hv.
  handlers. run. cbn [truthy]. rewrite Hv. cbn [negb]. run.
  match goal with
  | |- context [server env ?q] =>
      pose proof (Fails q) as F; destruct (server env q) as [|[[]|]];
      try discriminate F
  end; run;
    do 3 eexists; (split; [reflexivity|]); traces;
    (split; [reflexivity|]);
    (split; [rewrite timers_of_app; apply app_nil_r|]);
    (split; [observe; reflexivity|]);
    (split; [|reflexivity]); intros i Hi;
    repeat first [ rewrite lookup_emit
                 | rewrite lookup_write by (intros; reflexivity) ];
    rewrite !(lookup_unwritten i "bookingMessage") by assumption; reflexivity.
Qed.

Lemma removal_transport_failure env w this :
  (forall req, fails (server env req) = true) ->
  (forall q, user_confirms env q = true) ->
  (exists w' q req err,
      remove_booking_click env this w = (Normal tt, w') /\
      trace w'
      = (trace w ++
         [Confirm q true; Fetch req;
          ConsoleError "Error removing booking:" err;
          Alert "An error occurred while trying to remove the booking."])%list /\
      body w' = body w /\ href w' = href w) /\
  (exists w' q req err,
      remove_user_click env this w = (Normal tt, w') /\
      trace w'
      = (trace w ++
         [Confirm q true; Fetch req;
          ConsoleError "Error removing user:" err;
          Alert "An error occurred while trying to remove the user."])%list /\
      body w' = body w /\ href w' = href w) /\
  (exists w' q req err,
      delete_my_account_click env w = (Normal tt, w') /\
      trace w'
      = (trace w ++
         [Confirm q true; Fetch req;
          ConsoleError "Error deleting my account:" err;
          Alert "An error occurred while trying to delete your account."])%list /\
      body w' = body w /\ href w' = href w).
Proof.
  intros Fails Yes.
  repeat split; handlers; run;
    match goal with
    | |- context [server env ?q] =>
        pose proof (Fails q) as F; destruct (server env q) as [|[[]|]];
        try discriminate F
    end; run;
    do 4 eexists; (split; [reflexivity|]); traces;
    repeat split; reflexivity.
Qed.

(** C5. Where the transport throws (the request fails, the response is
    not JSON, or it is the JSON null), every action catches the error and
    its handler completes normally. The review and the booking form show
    the generic message in their message area, and every other element,
    so every input value, is as it was; the removals show the generic
    notification and leave the document as it was. No timer is set and
    the location is kept: the page is not reloaded. *)
Theorem transport_failure_is_contained : forall env,
  (forall req, fails (server env req) = true) ->
  (forall q, user_confirms env q = true) ->
  forall w, well_formed w = true ->
  (forall s r c m,
      lookup "serviceIdReview" w = Some s ->
      lookup "reviewRating" w = Some r ->
      lookup "reviewComment" w = Some c ->
      lookup_node "reviewMessage" w = Some (node m []) ->
      exists w' req err,
        review_submit env w = (Normal tt, w') /\
        trace w' = (trace w ++ [PreventDefault; Fetch req;
                                ConsoleError "Error submitting review:" err])%list /\
        timers_of (trace w') = timers_of (trace w) /\
        lookup "reviewMessage" w'
        = Some (with_className "mt-3"
                  (with_innerHTML
                     ("<div class=" ++ dq ++ "alert alert-danger rounded-pill" ++ dq
                      ++ " role=" ++ dq ++ "alert" ++ dq
                      ++ ">An unexpected error occurred.</div>") m)) /\
        (forall i, i <> "reviewMessage" -> lookup i w' = lookup i w) /\
        href w' = href w) /\
  (forall s d n m,
      lookup "serviceIdBooking" w = Some s ->
      lookup "bookingDate" w = Some d ->
      value d <> "" ->
      lookup "bookingNotes" w = Some n ->
      lookup_node "bookingMessage" w = Some (node m []) ->
      exists w' req err,
        booking_submit env w = (Normal tt, w') /\
        trace w' = (trace w ++ [PreventDefault; Fetch req;
                                ConsoleError "Error submitting booking:" err])%list /\
        timers_of (trace w') = timers_of (trace w) /\
        lookup "bookingMessage" w'
        = Some (with_className "mt-3"
                  (with_innerHTML
                     ("<div class=" ++ dq ++ "alert alert-danger rounded-pill" ++ dq
                      ++ " role=" ++ dq ++ "alert" ++ dq
                      ++ ">An unexpected error occurred.</div>") m)) /\
        (forall i, i <> "bookingMessage" -> lookup i w' = lookup i w) /\
        href w' = href w) /\
  (forall this,
      (exists w' q req err,
          remove_booking_click env this w = (Normal tt, w') /\
          trace w'
          = (trace w ++
             [Confirm q true; Fetch req;
              ConsoleError "Error removing booking:" err;
              Alert "An error occurred while trying to remove the booking."])%list /\
          body w' = body w /\ href w' = href w) /\
      (exists w' q req err,
          remove_user_click env this w = (Normal tt, w') /\
          trace w'
          = (trace w ++
             [Confirm q true; Fetch req;
              ConsoleError "Error removing user:" err;
              Alert "An error occurred while trying to remove the user."])%list /\
          body w' = body w /\ href w' = href w) /\
      (exists w' q req err,
          delete_my_account_click env w = (Normal tt, w') /\
          trace w'
          = (trace w ++
             [Confirm q true; Fetch req;
              ConsoleError "Error deleting my account:" err;
              Alert "An error occurred while trying to delete your account."])%list /\
          body w' = body w /\ href w' = href w)).
Proof.
  intros env Fails Yes w WF. split; [|split].
  - intros s r c m. now apply review_transport_failure.
  - intros s d n m. now apply booking_transport_failure.
  - intros this. now apply removal_transport_failure.
Qed.

Lemma transport_failure_is_contained_witness :
  (exists w' err,
      review_submit Sample.offline (Sample.page "4.5" "2026-12-24")
      = (Normal tt, w') /\
      lookup "reviewMessage" w'
      = Some (with_className "mt-3"
                (with_innerHTML
                   ("<div class=" ++ dq ++ "alert alert-danger rounded-pill" ++ dq
                    ++ " role=" ++ dq ++ "alert" ++ dq
                    ++ ">An unexpected error occurred.</div>")
                   Sample.reviewMessage)) /\
      lookup "reviewRating" w' = Some (Sample.reviewRating "4.5") /\
      timers_of (trace w') = [] /\
      In (ConsoleError "Error submitting review:" err) (trace w')) /\
  (exists w',
      booking_submit Sample.offline (Sample.page "4.5" "2026-12-24")
      = (Normal tt, w') /\
      lookup "bookingDate" w' = Some (Sample.bookingDate "2026-12-24") /\
      href w' = "/profile") /\
  (exists w',
      remove_booking_click Sample.offline
        (Sample.remove_booking_button 16 "5") (Sample.page "4.5" "2026-12-24")
      = (Normal tt, w') /\
      body w' = Some (Sample.document_body "4.5" "2026-12-24")).
Proof.
  destruct (transport_failure_is_contained
              Sample.offline (fun _ => eq_refl) (fun _ => eq_refl)
              (Sample.page "4.5" "2026-12-24") eq_refl) as [R [B D]].
  destruct (R Sample.serviceIdReview (Sample.reviewRating "4.5")
              Sample.reviewComment Sample.reviewMessage
              eq_refl eq_refl eq_refl eq_refl)
    as [w1 [req1 [err1 [R1 [R2 [Rt [R3 [R4 R5]]]]]]]].
  destruct (B Sample.serviceIdBooking (Sample.bookingDate "2026-12-24")
              Sample.bookingNotes Sample.bookingMessage
              eq_refl eq_refl ltac:(discriminate) eq_refl eq_refl)
    as [w2 [req2 [err2 [B1 [B2 [Bt [B3 [B4 B5]]]]]]]].
  destruct (D (Sample.remove_booking_button 16 "5"))
    as [[w3 [q3 [req3 [err3 [D1 [D2 [D3 D4]]]]]]] _].
  split; [|split].
  - exists w1, err1. split; [exact R1|]. split; [exact R3|].
    split; [rewrite R4 by discriminate; reflexivity|].
    split; [rewrite Rt; reflexivity|].
    rewrite R2. simpl. right. right. now left.
  - exists w2. split; [exact B1|].
    split; [rewrite B4 by discriminate; reflexivity | exact B5].
  - exists w3. split; [exact D1 | exact D3].
Defined.

(** ** Copying a contact number *)

Lemma is_child_appended (g : Node -> Node) ta cs :
  (forall c, uid (element_of (g c)) = uid (element_of c)) ->
  is_child ta (map g (cs ++ [node ta []])) = true.
Proof.
  intros Hg. unfold is_child. rewrite map_app, existsb_app. simpl.
  unfold has_uid at 2. rewrite Hg. simpl. rewrite Nat.eqb_refl.
  now rewrite orb_true_r.
Qed.

Lemma filter_appended (g : Node -> Node) ta cs :
  (forall c, uid (element_of (g c)) = uid (element_of c)) ->
  (forall c, In c cs -> uid (element_of c) <> uid ta) ->
  filter (fun c => negb (has_uid (uid ta) (element_of c)))
         (map g (cs ++ [node ta []]))
  = map g cs.
Proof.
  intros Hg Hcs. rewrite map_app, filter_app. simpl.
  unfold has_uid at 2. rewrite Hg. simpl. rewrite Nat.eqb_refl. simpl.
  rewrite app_nil_r. apply forallb_filter_id. apply forallb_forall.
  intros c Hc. apply in_map_iff in Hc. destruct Hc as [c0 [<- Hc0]].
  unfold has_uid. rewrite Hg. apply negb_true_iff, Nat.eqb_neq.
  now apply Hcs.
Qed.

Lemma well_formed_fresh w :
  well_formed w = true -> ~ In (next_uid w) (map uid (all_elements w)).
Proof.
  unfold well_formed. intros WF X.
  apply andb_prop in WF. destruct WF as [_ F].
  rewrite forallb_forall in F. specialize (F _ X).
  apply Nat.ltb_lt in F. lia.
Qed.

Lemma well_formed_children be cs nu sel clip h tr c :
  well_formed (mkWorld (Some (node be cs)) nu sel clip h tr) = true ->
  In c cs -> uid (element_of c) <> nu.
Proof.
  intros WF Hc E. apply (well_formed_fresh _ WF).
  unfold all_elements. cbn [body next_uid]. fold (uids (node be cs)).
  rewrite uids_node. right.
  apply in_flat_map. exists c. split; [exact Hc|].
  rewrite <- E. apply root_uid_in.
Qed.

(** After a click on a copy button the body is what it was, but for the
    class of the indicator where the copy went through. *)
Lemma copy_contact_body env this w :
  well_formed w = true ->
  body (snd (copy_contact_click env this w)) = body w \/
  exists u, body (snd (copy_contact_click env this w))
            = option_map (update u (classList_remove "d-none")) (body w).
Proof.
  intros WF. unfold copy_contact_click.
  destruct (getAttribute this "data-target") as [t|]; cbn [split_dash].
  2:{ left. reflexivity. }
  explore.
  match goal with |- context [lookup ?i _] => set (target := i) end.
  destruct w as [b nu sel clip h tr].
  destruct b as [[be cs]|].
  2:{ left. reflexivity. }
  pose proof (fun c => well_formed_children be cs nu sel clip h tr c WF) as Hcs.
  pose (ta := with_value
                match getAttribute this "data-contact" with
                | Some s => s
                | None => ""
                end (mkElement nu "textarea" "" [] "" "" "")).
  assert (uid ta = nu) as Hta by reflexivity.
  pose proof (is_child_appended (fun c => c) ta cs (fun c => eq_refl)) as C1.
  pose proof (filter_appended (fun c => c) ta cs (fun c => eq_refl)) as F1.
  rewrite map_id in C1. rewrite !map_id in F1. rewrite Hta in F1.
  specialize (F1 Hcs).
  assert (forall u c,
             uid (element_of (update u (classList_remove "d-none") c))
             = uid (element_of c)) as Hup.
  { intros u c. rewrite element_of_update. now apply written_uid. }
  cbv beta iota zeta delta
      [bind ret throw try_catch try_catch_finally getElementById createElement
       body_appendChild select execCommand_copy console_log console_error
       effect emit classList setTimeout modify_body body_removeChild with_body
       body next_uid selection clipboard href trace snd fst].
  fold ta.
  destruct (lookup target _) as [span|];
    destruct (copy_command env); cbv beta iota;
    cbn [option_map update];
    rewrite ?(is_child_appended _ ta cs (Hup _)), ?C1;
    rewrite ?Hta, ?(filter_appended _ ta cs (Hup _) Hcs), ?F1;
    try (left; reflexivity);
    right; exists (uid span); reflexivity.
Qed.

Lemma uid_without_class l :
  map uid (map (with_className "") l) = map uid l.
Proof. rewrite map_map. apply map_ext. reflexivity. Qed.

(** C9. After a click on a copy button, whatever the copy command does,
    the document holds the elements it held before, in their order and
    unchanged but for a class: the textarea that the handler appended to
    the body, the object numbered [next_uid w], is no longer there. *)
Theorem copy_leaves_no_textarea : forall env this w,
  well_formed w = true ->
  map (with_className "") (all_elements (snd (copy_contact_click env this w)))
  = map (with_className "") (all_elements w) /\
  ~ In (next_uid w)
       (map uid (all_elements (snd (copy_contact_click env this w)))).
Proof.
  intros env this w WF.
  assert (map (with_className "")
              (all_elements (snd (copy_contact_click env this w)))
          = map (with_className "") (all_elements w)) as Same.
  { unfold all_elements.
    destruct (copy_contact_body env this w WF) as [-> | [u ->]];
      [reflexivity|].
    destruct (body w) as [d|]; simpl; [|reflexivity].
    rewrite elements_update, map_map. apply map_ext. intros e.
    unfold written. destruct (has_uid u e); reflexivity. }
  split; [exact Same|].
  intros X. apply (well_formed_fresh w WF).
  assert (map uid (all_elements (snd (copy_contact_click env this w)))
          = map uid (all_elements w)) as E.
  { rewrite <- (uid_without_class (all_elements w)), <- Same.
    symmetry. apply uid_without_class. }
  now rewrite <- E.
Qed.

Lemma copy_leaves_no_textarea_witness :
  map (with_className "")
      (all_elements (snd (copy_contact_click Sample.offline Sample.copy_button
                                             (Sample.page "4.5" ""))))
  = map (with_className "") (all_elements (Sample.page "4.5" "")) /\
  ~ In 24
       (map uid
            (all_elements (snd (copy_contact_click
                                  Sample.agreeable Sample.copy_button
                                  (Sample.page "4.5" ""))))).
Proof.
  split.
  - apply (copy_leaves_no_textarea Sample.offline Sample.copy_button
                                   (Sample.page "4.5" "")).
    reflexivity.
  - apply (copy_leaves_no_textarea Sample.agreeable Sample.copy_button
                                   (Sample.page "4.5" "")).
    reflexivity.
Defined.

(** The click on the sample page, with a copy command that works: the
    clipboard holds the number, the indicator is shown and a timer will
    hide it, and the body holds what it held. *)
Example copy_contact_on_the_sample_page :
  let w' := snd (copy_contact_click Sample.agreeable Sample.copy_button
                                    (Sample.page "4.5" "")) in
  clipboard w' = "555-1234" /\
  option_map className (lookup "copied-message-1" w') = Some "text-success" /\
  timers_of (trace w') = [(hide_copied 1, 2000)] /\
  map uid (all_elements w') = map uid (all_elements (Sample.page "4.5" "")).
Proof. repeat split. Qed.


(* ===================================================================== *)
(** * The handlers on the sample page *)
(* ===================================================================== *)

(** A review of service 3, rating 4.5, comment Great: what is sent. *)
Example review_request_on_the_sample_page :
  requests_of (trace (snd (review_submit Sample.agreeable
                                         (Sample.page "4.5" ""))))
  = [mkRequest "/submit_review" "POST" [("Content-Type", "application/json")]
       (Some (JObject [("service_id", JNumber 3 0);
                       ("rating", JNumber 45 (-1));
                       ("comment", JString "Great")]))].
Proof. vm_compute. reflexivity. Qed.

(** A booking of service 7 without a date, notes x: nothing is sent. *)
Example booking_without_date_on_the_sample_page :
  requests_of (trace (snd (booking_submit Sample.agreeable
                                          (Sample.page "4.5" ""))))
  = [].
Proof. vm_compute. reflexivity. Qed.

(** The ids of the document after booking 5 has been removed. *)
Example remove_booking_on_the_sample_page :
  filter (fun i => negb (i =? ""))
         (map el_id
              (all_elements
                 (snd (remove_booking_click
                         Sample.agreeable (Sample.remove_booking_button 16 "5")
                         (Sample.page "4.5" "")))))
  = ["copied-message-1"; "reviewForm"; "serviceIdReview"; "reviewRating";
     "reviewComment"; "reviewMessage"; "bookingForm"; "serviceIdBooking";
     "bookingDate"; "bookingNotes"; "bookingMessage"; "booking-row-6";
     "user-row-2"; "deleteMyAccountBtn"].
Proof. vm_compute. reflexivity. Qed.

(** A button without its data-target: the handler throws before it
    creates the textarea, and the page is as it was. *)
Example copy_without_target :
  copy_contact_click Sample.agreeable (Sample.plain 2 "button")
                     (Sample.page "4.5" "")
  = (Throw TypeError, Sample.page "4.5" "").
Proof. vm_compute. reflexivity. Qed.

(** A server that answers with success false: the message of the server
    is shown as an error and the form keeps what was typed. *)
Example review_refused_on_the_sample_page :
  let refusing :=
    mkEnvironment
      (fun _ => Responds (Some (VObject [("success", VBool false);
                                         ("message", VString "Log in first")])))
      (fun _ => true) Copied in
  let w' := snd (review_submit refusing (Sample.page "4.5" "")) in
  option_map innerHTML (lookup "reviewMessage" w')
  = Some ("<div class=" ++ dq ++ "alert alert-danger rounded-pill" ++ dq
          ++ " role=" ++ dq ++ "alert" ++ dq
          ++ ">Log in first</div>") /\
  option_map value (lookup "reviewRating" w') = Some "4.5" /\
  timers_of (trace w') = [].
Proof. vm_compute. repeat split. Qed.

(* ===================================================================== *)
(** * Further properties of the handlers *)
(* ===================================================================== *)

Lemma run_remove e w : remove e w = (Normal tt, after_remove e w).
Proof.
  unfold after_remove, remove. destruct (body w); [|reflexivity].
  destruct (has_uid _ _); reflexivity.
Qed.

Lemma trace_after_remove e w : trace (after_remove e w) = trace w.
Proof.
  unfold after_remove, remove. destruct (body w); [|reflexivity].
  destruct (has_uid _ _); reflexivity.
Qed.

(** The cases of an answer that refuses. *)
Ltac refused H :=
  match type of H with
  | refuses ?result = true =>
      destruct result; try discriminate H;
      cbn [refuses] in H; try apply negb_true_iff in H;
      unfold field, lift; cbn [get_property]
  end.

(** A case distinction on anything the handler cannot know. *)
Ltac fork :=
  match goal with
  | |- context [match lookup ?i ?w with _ => _ end] =>
      destruct (lookup i w) eqn:?
  | |- context [get _ (lookup ?i ?w)] => destruct (lookup i w) eqn:?
  | |- context [set_innerHTML (lookup ?i ?w)] => destruct (lookup i w) eqn:?
  | |- context [set _ (lookup ?i ?w) _] => destruct (lookup i w)
  | |- context [if negb (truthy (VString ?s)) then _ else _] =>
      cbn [truthy]; destruct (s =? "") eqn:?; cbn [negb]
  | |- context [user_confirms ?env ?q] => destruct (user_confirms env q) eqn:?
  | |- context [match server ?env ?q with _ => _ end] =>
      destruct (server env q) as [|[?result|]]
  | |- context [if truthy ?v then _ else _] => destruct (truthy v)
  | |- context [field ?v _] => destruct v; unfold field, lift; cbn [get_property]
  end.

(** Every path through a handler. *)
Ltac wander :=
  explore; repeat (fork; explore; rewrite ?run_remove; explore).

(** ** An answer that refuses *)

(** X1. A review that the server answers without success (success false
    or missing, or an answer that is no object) shows the message of the
    server as an error in the message area; every other element, so all
    that was typed, is as it was; no timer is set and the location is
    kept. The message of the server is plain text: markup in it would
    put elements of its own into the message area. *)
Theorem review_refusal_keeps_the_form : forall env w s r c m result,
  well_formed w = true ->
  lookup "serviceIdReview" w = Some s ->
  lookup "reviewRating" w = Some r ->
  lookup "reviewComment" w = Some c ->
  lookup_node "reviewMessage" w = Some (node m []) ->
  (forall req, url req = "/submit_review" ->
               server env req = Responds (Some result)) ->
  refuses result = true ->
  plain_text (message_of result) = true ->
  exists w' req,
    review_submit env w = (Normal tt, w') /\
    trace w' = (trace w ++ [PreventDefault; Fetch req])%list /\
    lookup "reviewMessage" w'
    = Some (with_className "mt-3"
              (with_innerHTML
                 ("<div class=" ++ dq ++ "alert alert-danger rounded-pill" ++ dq
                  ++ " role=" ++ dq ++ "alert" ++ dq ++ ">"
                  ++ message_of result ++ "</div>") m)) /\
    (forall i, i <> "reviewMessage" -> lookup i w' = lookup i w) /\
    href w' = href w.
Proof.
  intros env w s r c m result WF Hs Hr Hc Hnode Hsrv Hno Hplain.
  pose proof (lookup_node_lookup _ _ _ Hnode) as Hm. simpl in Hm.
  pose proof (lookup_node_childless _ _ _ WF Hnode) as Hleaf.
  handlers. run.
  match goal with
  | |- context [server env ?q] => rewrite (Hsrv q eq_refl)
  end.
  run. refused Hno; run; cbn [truthy]; run;
    do 2 eexists; (split; [reflexivity|]); traces;
    (split; [reflexivity|]); (split; [observe; reflexivity|]);
    (split; [|reflexivity]); intros i Hi;
    repeat first [ rewrite lookup_emit
                 | rewrite lookup_write by (intros; reflexivity) ];
    rewrite !(lookup_unwritten i "reviewMessage") by assumption; reflexivity.
Qed.

Lemma review_refusal_keeps_the_form_witness :
  exists w' req,
    review_submit refusing (Sample.page "4.5" "") = (Normal tt, w') /\
    trace w' = [PreventDefault; Fetch req] /\
    lookup "reviewMessage" w'
    = Some (with_className "mt-3"
              (with_innerHTML
                 ("<div class=" ++ dq ++ "alert alert-danger rounded-pill" ++ dq
                  ++ " role=" ++ dq ++ "alert" ++ dq
                  ++ ">Log in first</div>")
                 Sample.reviewMessage)) /\
    lookup "reviewRating" w' = Some (Sample.reviewRating "4.5") /\
    lookup "reviewComment" w' = Some Sample.reviewComment.
Proof.
  destruct (review_refusal_keeps_the_form
              refusing (Sample.page "4.5" "") Sample.serviceIdReview
              (Sample.reviewRating "4.5") Sample.reviewComment
              Sample.reviewMessage sorry
              eq_refl eq_refl eq_refl eq_refl eq_refl
              (fun _ _ => eq_refl) eq_refl eq_refl)
    as [w' [req [H1 [H2 [H3 [H4 _]]]]]].
  exists w', req. split; [exact H1|]. split; [exact H2|]. split; [exact H3|].
  split; rewrite H4 by discriminate; reflexivity.
Defined.

(** X2. A booking that the server answers without success shows the
    message of the server as an error; the date, the notes and every
    other element are as they were, and the location is kept. The
    message of the server is plain text. *)
Theorem booking_refusal_keeps_the_form : forall env w s d n m result,
  well_formed w = true ->
  lookup "serviceIdBooking" w = Some s ->
  lookup "bookingDate" w = Some d ->
  value d <> "" ->
  lookup "bookingNotes" w = Some n ->
  lookup_node "bookingMessage" w = Some (node m []) ->
  (forall req, url req = "/submit_booking" ->
               server env req = Responds (Some result)) ->
  refuses result = true ->
  plain_text (message_of result) = true ->
  exists w' req,
    booking_submit env w = (Normal tt, w') /\
    trace w' = (trace w ++ [PreventDefault; Fetch req])%list /\
    lookup "bookingMessage" w'
    = Some (with_className "mt-3"
              (with_innerHTML
                 ("<div class=" ++ dq ++ "alert alert-danger rounded-pill" ++ dq
                  ++ " role=" ++ dq ++ "alert" ++ dq ++ ">"
                  ++ message_of result ++ "</div>") m)) /\
    (forall i, i <> "bookingMessage" -> lookup i w' = lookup i w) /\
    href w' = href w.
Proof.
  intros env w s d n m result WF Hs Hd Hv Hn Hnode Hsrv Hno Hplain.
  pose proof (lookup_node_lookup _ _ _ Hnode) as Hm. simpl in Hm.
  pose proof (lookup_node_childless _ _ _ WF Hnode) as Hleaf.
  apply String.eqb_neq in Hv.
  handlers. run. cbn [truthy]. rewrite Hv. cbn [negb]. run.
  match goal with
  | |- context [server env ?q] => rewrite (Hsrv q eq_refl)
  end.
  run. refused Hno; run; cbn [truthy]; run;
    do 2 eexists; (split; [reflexivity|]); traces;
    (split; [reflexivity|]); (split; [observe; reflexivity|]);
    (split; [|reflexivity]); intros i Hi;
    repeat first [ rewrite lookup_emit
                 | rewrite lookup_write by (intros; reflexivity) ];
    rewrite !(lookup_unwritten i "bookingMessage") by assumption; reflexivity.
Qed.

Lemma booking_refusal_keeps_the_form_witness :
  exists w' req,
    booking_submit refusing (Sample.page "4.5" "2026-12-24")
    = (Normal tt, w') /\
    trace w' = [PreventDefault; Fetch req] /\
    lookup "bookingMessage" w'
    = Some (with_className "mt-3"
              (with_innerHTML
                 ("<div class=" ++ dq ++ "alert alert-danger rounded-pill" ++ dq
                  ++ " role=" ++ dq ++ "alert" ++ dq
                  ++ ">Log in first</div>")
                 Sample.bookingMessage)) /\
    lookup "bookingDate" w' = Some (Sample.bookingDate "2026-12-24") /\
    lookup "bookingNotes" w' = Some Sample.bookingNotes.
Proof.
  destruct (booking_refusal_keeps_the_form
              refusing (Sample.page "4.5" "2026-12-24")
              Sample.serviceIdBooking (Sample.bookingDate "2026-12-24")
              Sample.bookingNotes Sample.bookingMessage sorry
              eq_refl eq_refl eq_refl ltac:(discriminate) eq_refl eq_refl
              (fun _ _ => eq_refl) eq_refl eq_refl)
    as [w' [req [H1 [H2 [H3 [H4 _]]]]]].
  exists w', req. split; [exact H1|]. split; [exact H2|]. split; [exact H3|].
  split; rewrite H4 by discriminate; reflexivity.
Defined.

(** X3. A confirmed removal (of a booking, of a user, of the own
    account) that the server answers without success shows one
    notification, Error: and the message of the server; the document and
    the location are as they were. *)
Theorem removal_refusal_alerts_and_keeps_the_page : forall env result,
  (forall q, user_confirms env q = true) ->
  (forall req, server env req = Responds (Some result)) ->
  refuses result = true ->
  forall w this,
    (exists w' q req,
        remove_booking_click env this w = (Normal tt, w') /\
        trace w' = (trace w ++ [Confirm q true; Fetch req;
                                Alert ("Error: " ++ message_of result)])%list /\
        body w' = body w /\ href w' = href w) /\
    (exists w' q req,
        remove_user_click env this w = (Normal tt, w') /\
        trace w' = (trace w ++ [Confirm q true; Fetch req;
                                Alert ("Error: " ++ message_of result)])%list /\
        body w' = body w /\ href w' = href w) /\
    (exists w' q req,
        delete_my_account_click env w = (Normal tt, w') /\
        trace w' = (trace w ++ [Confirm q true; Fetch req;
                                Alert ("Error: " ++ message_of result)])%list /\
        body w' = body w /\ href w' = href w).
Proof.
  intros env result Yes Srv Hno w this.
  repeat split; handlers; run; refused Hno; run; cbn [truthy]; run;
    do 3 eexists; (split; [reflexivity|]); traces;
    repeat split; reflexivity.
Qed.

Lemma removal_refusal_alerts_and_keeps_the_page_witness :
  (exists w' q req,
      remove_booking_click refusing (Sample.remove_booking_button 16 "5")
                           (Sample.page "4.5" "")
      = (Normal tt, w') /\
      trace w' = [Confirm q true; Fetch req; Alert "Error: Log in first"] /\
      body w' = Some (Sample.document_body "4.5" "") /\
      href w' = "/profile") /\
  (exists w' q req,
      delete_my_account_click refusing (Sample.page "4.5" "")
      = (Normal tt, w') /\
      trace w' = [Confirm q true; Fetch req; Alert "Error: Log in first"] /\
      body w' = Some (Sample.document_body "4.5" "") /\
      href w' = "/profile").
Proof.
  destruct (removal_refusal_alerts_and_keeps_the_page
              refusing sorry (fun _ => eq_refl) (fun _ => eq_refl) eq_refl
              (Sample.page "4.5" "") (Sample.remove_booking_button 16 "5"))
    as [B [_ D]].
  exact (conj B D).
Defined.

(** ** The copy handler, path by path *)

(** The page the copy handler leaves on a well-formed document, for a
    button that names its target: the textarea is gone again, the
    counter of objects has moved by one, the selection is what the
    textarea held. *)
Lemma copy_contact_outcome env this w t d :
  well_formed w = true ->
  getAttribute this "data-target" = Some t ->
  body w = Some d ->
  copy_contact_click env this w
  = (Normal tt,
     match copy_command env with
     | CopyThrows =>
         mkWorld (body w) (S (next_uid w)) (contact_of this) (clipboard w)
                 (href w)
                 (trace w ++ [ConsoleError "Failed to copy contact number:"
                                           CommandError])
     | outcome =>
         mkWorld
           (match lookup (indicator_id t) w with
            | Some span =>
                option_map (update (uid span) (classList_remove "d-none"))
                           (body w)
            | None => body w
            end)
           (S (next_uid w)) (contact_of this)
           (match outcome with Copied => contact_of this | _ => clipboard w end)
           (href w)
           (trace w ++
            ConsoleLog "Contact number copied:"
                       (of_attribute (getAttribute this "data-contact"))
            :: match lookup (indicator_id t) w with
               | Some span => [SetTimeout (hide_copied (uid span)) 2000]
               | None => []
               end)
     end).
Proof.
  intros WF Ht Hd. unfold copy_contact_click. rewrite Ht. cbn [split_dash].
  explore. fold (indicator_id t).
  destruct w as [b nu sel clip h tr]. cbn [body] in Hd. subst b.
  destruct d as [be cs].
  pose proof (fun c => well_formed_children be cs nu sel clip h tr c WF) as Hcs.
  pose (ta := with_value (contact_of this) (mkElement nu "textarea" "" [] "" "" "")).
  assert (uid ta = nu) as Hta by reflexivity.
  pose proof (is_child_appended (fun c => c) ta cs (fun c => eq_refl)) as C1.
  pose proof (filter_appended (fun c => c) ta cs (fun c => eq_refl)) as F1.
  rewrite map_id in C1. rewrite !map_id in F1. rewrite Hta in F1.
  specialize (F1 Hcs).
  assert (forall u c,
             uid (element_of (update u (classList_remove "d-none") c))
             = uid (element_of c)) as Hup.
  { intros u c. rewrite element_of_update. now apply written_uid. }
  cbv beta iota zeta delta
      [bind ret throw try_catch try_catch_finally getElementById createElement
       body_appendChild select execCommand_copy console_log console_error
       effect emit classList setTimeout modify_body body_removeChild with_body
       body next_uid selection clipboard href trace snd fst].
  fold (contact_of this). fold ta.
  destruct (lookup (indicator_id t) _) as [span|];
    destruct (copy_command env); cbv beta iota;
    cbn [option_map update];
    rewrite ?(is_child_appended _ ta cs (Hup _)), ?C1;
    rewrite ?Hta, ?(filter_appended _ ta cs (Hup _) Hcs), ?F1;
    rewrite <- ?app_assoc; reflexivity.
Qed.

Lemma lookup_written_self i u f w e :
  (forall x, el_id (f x) = el_id x) ->
  lookup i w = Some e -> uid e = u ->
  lookup i (write u f w) = Some (f e).
Proof.
  intros Hf He Hu. rewrite lookup_write by exact Hf. rewrite He. simpl.
  unfold written, has_uid. now rewrite Hu, Nat.eqb_refl.
Qed.

(** X4. A copy that the browser carries out: the clipboard holds the
    contact number of the button, the indicator that the data-target
    names has lost its d-none token, the copy is logged and one timer
    of 2000 ms is set to hide the indicator again. *)
Theorem copy_fills_clipboard_and_shows_indicator : forall env this w t span,
  well_formed w = true ->
  getAttribute this "data-target" = Some t ->
  lookup (indicator_id t) w = Some span ->
  copy_command env = Copied ->
  exists w',
    copy_contact_click env this w = (Normal tt, w') /\
    clipboard w' = contact_of this /\
    lookup (indicator_id t) w' = Some (classList_remove "d-none" span) /\
    trace w'
    = (trace w ++
       [ConsoleLog "Contact number copied:"
                   (of_attribute (getAttribute this "data-contact"));
        SetTimeout (hide_copied (uid span)) 2000])%list.
Proof.
  intros env this w t span WF Ht Hspan Hcopy.
  destruct (body w) as [d|] eqn:Hd.
  2:{ unfold lookup in Hspan. rewrite Hd in Hspan. discriminate. }
  rewrite (copy_contact_outcome env this w t d WF Ht Hd), Hcopy, Hspan.
  eexists. split; [reflexivity|]. split; [reflexivity|]. split; [|reflexivity].
  change (lookup (indicator_id t)
            (write (uid span) (classList_remove "d-none")
               (mkWorld (body w) (S (next_uid w)) (contact_of this)
                        (contact_of this) (href w) (trace w)))
          = Some (classList_remove "d-none" span)).
  apply lookup_written_self; [reflexivity | exact Hspan | reflexivity].
Qed.

Lemma copy_fills_clipboard_and_shows_indicator_witness :
  exists w',
    copy_contact_click Sample.agreeable Sample.copy_button
                       (Sample.page "4.5" "")
    = (Normal tt, w') /\
    clipboard w' = "555-1234" /\
    lookup "copied-message-1" w'
    = Some (classList_remove "d-none" Sample.copied_span) /\
    trace w'
    = [ConsoleLog "Contact number copied:" (VString "555-1234");
       SetTimeout (hide_copied 1) 2000].
Proof.
  apply (copy_fills_clipboard_and_shows_indicator
           Sample.agreeable Sample.copy_button (Sample.page "4.5" "")
           "contact-1" Sample.copied_span);
    reflexivity.
Defined.

(** X5. A copy command that reports it did not copy (it returns false
    and does not throw): the handler does not look at what the command
    returns, so it logs the copy and shows the indicator all the same,
    while the clipboard is as it was. *)
Theorem copy_refused_still_shows_indicator : forall env this w t span,
  well_formed w = true ->
  getAttribute this "data-target" = Some t ->
  lookup (indicator_id t) w = Some span ->
  copy_command env = NotCopied ->
  exists w',
    copy_contact_click env this w = (Normal tt, w') /\
    clipboard w' = clipboard w /\
    lookup (indicator_id t) w' = Some (classList_remove "d-none" span) /\
    trace w'
    = (trace w ++
       [ConsoleLog "Contact number copied:"
                   (of_attribute (getAttribute this "data-contact"));
        SetTimeout (hide_copied (uid span)) 2000])%list.
Proof.
  intros env this w t span WF Ht Hspan Hcopy.
  destruct (body w) as [d|] eqn:Hd.
  2:{ unfold lookup in Hspan. rewrite Hd in Hspan. discriminate. }
  rewrite (copy_contact_outcome env this w t d WF Ht Hd), Hcopy, Hspan.
  eexists. split; [reflexivity|]. split; [reflexivity|]. split; [|reflexivity].
  change (lookup (indicator_id t)
            (write (uid span) (classList_remove "d-none")
               (mkWorld (body w) (S (next_uid w)) (contact_of this)
                        (clipboard w) (href w) (trace w)))
          = Some (classList_remove "d-none" span)).
  apply lookup_written_self; [reflexivity | exact Hspan | reflexivity].
Qed.

Lemma copy_refused_still_shows_indicator_witness :
  exists w',
    copy_contact_click refusing Sample.copy_button (Sample.page "4.5" "")
    = (Normal tt, w') /\
    clipboard w' = "" /\
    lookup "copied-message-1" w'
    = Some (classList_remove "d-none" Sample.copied_span) /\
    trace w'
    = [ConsoleLog "Contact number copied:" (VString "555-1234");
       SetTimeout (hide_copied 1) 2000].
Proof.
  apply (copy_refused_still_shows_indicator
           refusing Sample.copy_button (Sample.page "4.5" "")
           "contact-1" Sample.copied_span);
    reflexivity.
Defined.

(** X6. A copy command that throws: the error is logged on the console
    and that is all; the document is as it was (the textarea has been
    taken out again), the indicator stays hidden, no timer is set and
    the clipboard is as it was. *)
Theorem copy_failure_is_only_logged : forall env this w t d,
  well_formed w = true ->
  getAttribute this "data-target" = Some t ->
  body w = Some d ->
  copy_command env = CopyThrows ->
  exists w',
    copy_contact_click env this w = (Normal tt, w') /\
    body w' = body w /\
    clipboard w' = clipboard w /\
    trace w'
    = (trace w ++ [ConsoleError "Failed to copy contact number:"
                                CommandError])%list.
Proof.
  intros env this w t d WF Ht Hd Hcopy.
  rewrite (copy_contact_outcome env this w t d WF Ht Hd), Hcopy.
  eexists. repeat split; reflexivity.
Qed.

Lemma copy_failure_is_only_logged_witness :
  exists w',
    copy_contact_click Sample.offline Sample.copy_button (Sample.page "4.5" "")
    = (Normal tt, w') /\
    body w' = Some (Sample.document_body "4.5" "") /\
    clipboard w' = "" /\
    trace w' = [ConsoleError "Failed to copy contact number:" CommandError].
Proof.
  apply (copy_failure_is_only_logged
           Sample.offline Sample.copy_button (Sample.page "4.5" "")
           "contact-1" (Sample.document_body "4.5" ""));
    reflexivity.
Defined.

(** X7. A page without the indicator that the data-target names: the
    contact number is copied all the same, the document is as it was
    and no timer is set. *)
Theorem copy_without_indicator_still_copies : forall env this w t d,
  well_formed w = true ->
  getAttribute this "data-target" = Some t ->
  body w = Some d ->
  lookup (indicator_id t) w = None ->
  copy_command env = Copied ->
  exists w',
    copy_contact_click env this w = (Normal tt, w') /\
    clipboard w' = contact_of this /\
    body w' = body w /\
    timers_of (trace w') = timers_of (trace w).
Proof.
  intros env this w t d WF Ht Hd Hnone Hcopy.
  rewrite (copy_contact_outcome env this w t d WF Ht Hd), Hcopy, Hnone.
  eexists. split; [reflexivity|]. split; [reflexivity|]. split; [reflexivity|].
  cbn [trace]. rewrite timers_of_app. apply app_nil_r.
Qed.

Lemma copy_without_indicator_still_copies_witness :
  exists w',
    copy_contact_click Sample.agreeable Sample.copy_button blank_page
    = (Normal tt, w') /\
    clipboard w' = "555-1234" /\
    body w' = body blank_page /\
    timers_of (trace w') = [].
Proof.
  apply (copy_without_indicator_still_copies
           Sample.agreeable Sample.copy_button blank_page "contact-1"
           (node (Sample.plain 0 "body") []));
    reflexivity.
Defined.

(** X8. On a well-formed document the copy handler throws exactly when
    the button has no data-target (the split is called on null); then
    the error is a TypeError and the page is as it was: nothing is
    logged, created or copied. *)
Theorem copy_throws_exactly_without_target : forall env this w d,
  well_formed w = true ->
  body w = Some d ->
  (fst (copy_contact_click env this w) = Normal tt <->
   getAttribute this "data-target" <> None) /\
  (getAttribute this "data-target" = None ->
   copy_contact_click env this w = (Throw TypeError, w)).
Proof.
  intros env this w d WF Hd.
  destruct (getAttribute this "data-target") as [t|] eqn:Ht.
  - rewrite (copy_contact_outcome env this w t d WF Ht Hd).
    split; [|discriminate]. split; [discriminate | reflexivity].
  - assert (copy_contact_click env this w = (Throw TypeError, w)) as E.
    { unfold copy_contact_click. rewrite Ht. reflexivity. }
    rewrite E. split; [|reflexivity].
    split; [discriminate | intros H; now contradiction H].
Qed.

Lemma copy_throws_exactly_without_target_witness :
  (fst (copy_contact_click Sample.agreeable (Sample.plain 2 "button")
                           (Sample.page "4.5" ""))
   = Normal tt <->
   getAttribute (Sample.plain 2 "button") "data-target" <> None) /\
  (getAttribute (Sample.plain 2 "button") "data-target" = None ->
   copy_contact_click Sample.agreeable (Sample.plain 2 "button")
                      (Sample.page "4.5" "")
   = (Throw TypeError, Sample.page "4.5" "")).
Proof.
  apply (copy_throws_exactly_without_target
           Sample.agreeable (Sample.plain 2 "button") (Sample.page "4.5" "")
           (Sample.document_body "4.5" ""));
    reflexivity.
Defined.

(** ** The indicator a button names *)

Lemma append_nil_r (s : string) : s ++ "" = s.
Proof. induction s as [|c s IH]; simpl; [reflexivity | now rewrite IH]. Qed.

Lemma append_assoc (a b c : string) : (a ++ b) ++ c = a ++ (b ++ c).
Proof. induction a as [|x a IH]; simpl; [reflexivity | now rewrite IH]. Qed.

Lemma split_from_no_dash a : forall rest piece,
  no_dash a = true ->
  split_from "-" (a ++ rest) piece = split_from "-" rest (piece ++ a).
Proof.
  induction a as [|c a IH]; intros rest piece H; simpl.
  - now rewrite append_nil_r.
  - simpl in H. apply andb_prop in H. destruct H as [Hc Ha].
    apply negb_true_iff in Hc. rewrite Hc. rewrite (IH _ _ Ha).
    now rewrite append_assoc.
Qed.

Lemma split_no_dash a : no_dash a = true -> split "-" a = [a].
Proof.
  intros H. unfold split. rewrite <- (append_nil_r a) at 1.
  now rewrite (split_from_no_dash a "" "" H).
Qed.

Lemma split_at_dash a rest :
  no_dash a = true -> split "-" (a ++ "-" ++ rest) = a :: split "-" rest.
Proof.
  intros H. unfold split. now rewrite (split_from_no_dash a _ "" H).
Qed.

(** X9. The indicator of a copy button: the text between the first and
    the second dash of its data-target names it, whatever follows a
    second dash; without a dash, or with nothing after the first one,
    it is the indicator of the detail page. *)
Theorem indicator_of_target : forall a b rest,
  no_dash a = true ->
  no_dash b = true ->
  indicator_id a = "copied-message-detail" /\
  indicator_id (a ++ "-" ++ b)
  = "copied-message-" ++ (if b =? "" then "detail" else b) /\
  indicator_id (a ++ "-" ++ b ++ "-" ++ rest)
  = "copied-message-" ++ (if b =? "" then "detail" else b).
Proof.
  intros a b rest Ha Hb. unfold indicator_id. repeat split.
  - now rewrite (split_no_dash a Ha).
  - rewrite (split_at_dash a b Ha), (split_no_dash b Hb). reflexivity.
  - rewrite (split_at_dash a _ Ha), (split_at_dash b rest Hb). reflexivity.
Qed.

Lemma indicator_of_target_witness :
  indicator_id "contact" = "copied-message-detail" /\
  indicator_id "contact-5" = "copied-message-5" /\
  indicator_id "contact-5-old" = "copied-message-5".
Proof.
  apply (indicator_of_target "contact" "5" "old"); reflexivity.
Defined.

(** ** Class tokens *)

Lemma mem_In t l : mem t l = true <-> In t l.
Proof.
  induction l as [|x l IH]; simpl.
  - split; [discriminate | tauto].
  - rewrite orb_true_iff, String.eqb_eq, IH. tauto.
Qed.

Lemma mem_not_In t l : mem t l = false <-> ~ In t l.
Proof.
  rewrite <- mem_In. destruct (mem t l); split; congruence.
Qed.

Lemma no_space_app a b : no_space (a ++ b) = no_space a && no_space b.
Proof.
  induction a as [|c a IH]; simpl; [reflexivity|].
  now rewrite IH, andb_assoc.
Qed.

Lemma append_not_empty a c : (a ++ String c "" =? "") = false.
Proof. destruct a; reflexivity. Qed.

Lemma tokens_from_are_tokens s : forall acc,
  no_space acc = true ->
  Forall (fun t => is_token t = true) (tokens_from s acc).
Proof.
  induction s as [|c s IH]; intros acc Hacc; simpl.
  - destruct (acc =? "") eqn:E; constructor; [|constructor].
    unfold is_token. now rewrite E, Hacc.
  - destruct (is_ascii_whitespace c) eqn:Ec.
    + destruct (acc =? "") eqn:E; [now apply IH|].
      constructor; [|now apply IH].
      unfold is_token. now rewrite E, Hacc.
    + apply IH. rewrite no_space_app, Hacc. simpl. now rewrite Ec.
Qed.

Lemma dedupe_In l : forall seen x,
  In x (dedupe seen l) -> In x l /\ mem x seen = false.
Proof.
  induction l as [|y l IH]; intros seen x H; simpl in *; [tauto|].
  destruct (mem y seen) eqn:E.
  - destruct (IH _ _ H). tauto.
  - destruct H as [<- | H]; [tauto|].
    destruct (IH _ _ H) as [H1 H2]. simpl in H2.
    apply orb_false_iff in H2. tauto.
Qed.

Lemma dedupe_NoDup l : forall seen, NoDup (dedupe seen l).
Proof.
  induction l as [|y l IH]; intros seen; simpl; [constructor|].
  destruct (mem y seen); [apply IH|].
  constructor; [|apply IH].
  intros H. apply dedupe_In in H. destruct H as [_ H]. simpl in H.
  now rewrite String.eqb_refl in H.
Qed.

Lemma dedupe_Forall (P : string -> Prop) l : forall seen,
  Forall P l -> Forall P (dedupe seen l).
Proof.
  induction l as [|y l IH]; intros seen H; simpl; [constructor|].
  inversion H; subst. destruct (mem y seen); [now apply IH|].
  constructor; [assumption | now apply IH].
Qed.

Lemma dedupe_distinct l : forall seen,
  NoDup l -> (forall x, In x l -> mem x seen = false) -> dedupe seen l = l.
Proof.
  induction l as [|y l IH]; intros seen ND H; simpl; [reflexivity|].
  inversion ND; subst. rewrite (H y) by now left. f_equal.
  apply IH; [assumption|].
  intros x Hx. simpl. rewrite (H x) by now right.
  rewrite orb_false_r. apply String.eqb_neq. intros ->. contradiction.
Qed.

Lemma tokens_from_app t : forall r acc,
  no_space t = true -> tokens_from (t ++ r) acc = tokens_from r (acc ++ t).
Proof.
  induction t as [|c t IH]; intros r acc H; simpl in *.
  - now rewrite append_nil_r.
  - apply andb_true_iff in H. destruct H as [Hc Ht].
    apply negb_true_iff in Hc. rewrite Hc, IH by assumption.
    now rewrite append_assoc.
Qed.

Lemma tokens_from_join ts :
  Forall (fun t => is_token t = true) ts -> tokens_from (join " " ts) "" = ts.
Proof.
  induction ts as [|x ts IH]; intros H; [reflexivity|].
  inversion H as [|? ? Hx Hts]; subst.
  unfold is_token in Hx. apply andb_true_iff in Hx. destruct Hx as [Hne Hx].
  apply negb_true_iff in Hne.
  destruct ts as [|y ts].
  - simpl. rewrite <- (append_nil_r x) at 1.
    rewrite tokens_from_app by assumption. simpl. now rewrite Hne.
  - change (join " " (x :: y :: ts)) with (x ++ " " ++ join " " (y :: ts)).
    rewrite tokens_from_app by assumption.
    change (tokens_from (" " ++ join " " (y :: ts)) ("" ++ x))
      with (if x =? "" then tokens_from (join " " (y :: ts)) ""
            else x :: tokens_from (join " " (y :: ts)) "").
    rewrite Hne. f_equal. now apply IH.
Qed.

Lemma token_set_join ts :
  Forall (fun t => is_token t = true) ts -> NoDup ts ->
  token_set (join " " ts) = ts.
Proof.
  intros H ND. unfold token_set. rewrite tokens_from_join by assumption.
  apply dedupe_distinct; [assumption | reflexivity].
Qed.

Lemma token_set_tokens s : Forall (fun t => is_token t = true) (token_set s).
Proof. apply dedupe_Forall. now apply tokens_from_are_tokens. Qed.

Lemma token_set_NoDup s : NoDup (token_set s).
Proof. apply dedupe_NoDup. Qed.

Lemma Forall_filter (P : string -> Prop) f l :
  Forall P l -> Forall P (filter f l).
Proof.
  induction 1; simpl; [constructor|]. destruct (f x); [constructor|]; assumption.
Qed.

(** What [classList.remove] leaves: the tokens of the element in their
    order, without the one removed. *)
Lemma tokens_of_remove t e :
  tokens_of (classList_remove t e)
  = filter (fun x => negb (x =? t)) (tokens_of e).
Proof.
  unfold tokens_of, classList_remove. cbn [className with_className].
  apply token_set_join.
  - apply Forall_filter, token_set_tokens.
  - apply NoDup_filter, token_set_NoDup.
Qed.

(** What [classList.add] leaves: the tokens of the element, and the new
    one behind them where it was not among them. *)
Lemma tokens_of_add t e :
  is_token t = true ->
  tokens_of (classList_add t e)
  = (if mem t (tokens_of e) then tokens_of e else tokens_of e ++ [t])%list.
Proof.
  intros Ht. unfold tokens_of, classList_add. cbn [className with_className].
  apply token_set_join.
  - destruct (mem t _); [apply token_set_tokens|].
    apply Forall_app. split; [apply token_set_tokens|].
    constructor; [assumption | constructor].
  - destruct (mem t _) eqn:E; [apply token_set_NoDup|].
    apply mem_not_In in E.
    apply NoDup_app; [apply token_set_NoDup | repeat constructor; tauto |].
    intros y Hy [<- | []]. contradiction.
Qed.

Lemma mem_filtered t l : mem t (filter (fun x => negb (x =? t)) l) = false.
Proof.
  apply mem_not_In. intros H. apply filter_In in H.
  destruct H as [_ H]. now rewrite String.eqb_refl in H.
Qed.

(** X10. The class attribute is a string, and [classList] reads it as
    an ordered set of tokens. Removing a token leaves the other tokens
    in their order; adding one puts it last unless it is there; removing
    and then adding a token moves it to the end. The string written in
    between reads back as the tokens that were joined. *)
Theorem class_tokens_after_remove_and_add : forall e t,
  is_token t = true ->
  tokens_of (classList_remove t e)
  = filter (fun x => negb (x =? t)) (tokens_of e) /\
  tokens_of (classList_add t e)
  = (if mem t (tokens_of e) then tokens_of e else tokens_of e ++ [t])%list /\
  tokens_of (classList_add t (classList_remove t e))
  = (filter (fun x => negb (x =? t)) (tokens_of e) ++ [t])%list.
Proof.
  intros e t Ht.
  split; [apply tokens_of_remove|]. split; [now apply tokens_of_add|].
  rewrite tokens_of_add by assumption.
  now rewrite tokens_of_remove, mem_filtered.
Qed.

Lemma class_tokens_after_remove_and_add_witness :
  tokens_of (classList_remove "d-none" Sample.copied_span)
  = filter (fun x => negb (x =? "d-none")) (tokens_of Sample.copied_span) /\
  tokens_of (classList_add "d-none" Sample.copied_span)
  = (if mem "d-none" (tokens_of Sample.copied_span)
     then tokens_of Sample.copied_span
     else tokens_of Sample.copied_span ++ ["d-none"])%list /\
  tokens_of (classList_add "d-none"
               (classList_remove "d-none" Sample.copied_span))
  = (filter (fun x => negb (x =? "d-none")) (tokens_of Sample.copied_span)
     ++ ["d-none"])%list.
Proof.
  apply (class_tokens_after_remove_and_add Sample.copied_span "d-none").
  reflexivity.
Defined.

(** X11. The indicator is shown and then hidden again. After a copy
    command that does not throw, the indicator has no d-none token and
    the one timer set carries the callback that hides it; when that
    callback runs, the indicator has its other tokens in their order and
    d-none behind them. *)
Theorem copy_indicator_is_hidden_again : forall env this w t span,
  well_formed w = true ->
  getAttribute this "data-target" = Some t ->
  lookup (indicator_id t) w = Some span ->
  copy_command env <> CopyThrows ->
  exists w1 w2 shown hidden,
    copy_contact_click env this w = (Normal tt, w1) /\
    timers_of (trace w1)
    = (timers_of (trace w) ++ [(hide_copied (uid span), 2000)])%list /\
    lookup (indicator_id t) w1 = Some shown /\
    mem "d-none" (tokens_of shown) = false /\
    run_callback (hide_copied (uid span)) w1 = (Normal tt, w2) /\
    lookup (indicator_id t) w2 = Some hidden /\
    tokens_of hidden
    = (filter (fun x => negb (x =? "d-none")) (tokens_of span)
       ++ ["d-none"])%list.
Proof.
  intros env this w t span WF Ht Hspan Hcopy.
  destruct (body w) as [d|] eqn:Hd.
  2:{ unfold lookup in Hspan. rewrite Hd in Hspan. discriminate. }
  pose proof (copy_contact_outcome env this w t d WF Ht Hd) as E.
  rewrite Hspan, Hd in E.
  assert (exists clip,
             copy_contact_click env this w
             = (Normal tt,
                write (uid span) (classList_remove "d-none")
                  (mkWorld (Some d) (S (next_uid w)) (contact_of this) clip
                     (href w)
                     (trace w ++
                      [ConsoleLog "Contact number copied:"
                         (of_attribute (getAttribute this "data-contact"));
                       SetTimeout (hide_copied (uid span)) 2000]))))
    as [clip E'].
  { destruct (copy_command env); [eexists; exact E | eexists; exact E |].
    now contradiction Hcopy. }
  clear E. rewrite E'.
  assert (lookup (indicator_id t)
            (mkWorld (Some d) (S (next_uid w)) (contact_of this) clip (href w)
               (trace w ++
                [ConsoleLog "Contact number copied:"
                   (of_attribute (getAttribute this "data-contact"));
                 SetTimeout (hide_copied (uid span)) 2000]))
          = Some span) as Hspan'.
  { unfold lookup in *. cbn [body]. now rewrite Hd in Hspan. }
  pose proof (lookup_written_self _ _ (classList_remove "d-none") _ _
                ltac:(reflexivity) Hspan' eq_refl) as Hshown.
  do 2 eexists. exists (classList_remove "d-none" span).
  exists (classList_add "d-none" (classList_remove "d-none" span)).
  split; [reflexivity|]. split.
  { cbn [trace write with_body]. rewrite timers_of_app. reflexivity. }
  split; [exact Hshown|]. split.
  { rewrite tokens_of_remove. apply mem_filtered. }
  split; [reflexivity|]. split.
  - apply (lookup_written_self _ _ (classList_add "d-none") _ _
             ltac:(reflexivity) Hshown eq_refl).
  - rewrite tokens_of_add by reflexivity.
    now rewrite tokens_of_remove, mem_filtered.
Qed.

Lemma copy_indicator_is_hidden_again_witness :
  exists w1 w2 shown hidden,
    copy_contact_click Sample.agreeable Sample.copy_button
                       (Sample.page "4.5" "")
    = (Normal tt, w1) /\
    timers_of (trace w1) = [(hide_copied 1, 2000)] /\
    lookup "copied-message-1" w1 = Some shown /\
    mem "d-none" (tokens_of shown) = false /\
    run_callback (hide_copied 1) w1 = (Normal tt, w2) /\
    lookup "copied-message-1" w2 = Some hidden /\
    tokens_of hidden
    = (filter (fun x => negb (x =? "d-none")) (tokens_of Sample.copied_span)
       ++ ["d-none"])%list.
Proof.
  apply (copy_indicator_is_hidden_again
           Sample.agreeable Sample.copy_button (Sample.page "4.5" "")
           "contact-1" Sample.copied_span);
    try reflexivity.
  discriminate.
Defined.

(** ** A form that is not on the page *)

(** X12. A review form that lacks one of the four elements the handler
    looks up: the TypeError of the property read or write on null
    escapes the handler (these statements stand before the try), the
    default action has been prevented, nothing is sent and the document
    is as it was. *)
Theorem review_missing_element_escapes : forall env w,
  lookup "serviceIdReview" w = None \/ lookup "reviewRating" w = None \/
  lookup "reviewComment" w = None \/ lookup "reviewMessage" w = None ->
  exists w',
    review_submit env w = (Throw TypeError, w') /\
    trace w' = (trace w ++ [PreventDefault])%list /\
    body w' = body w.
Proof.
  intros env w H. handlers. explore.
  destruct (lookup "serviceIdReview" w) eqn:Hs; explore;
    [|eexists; repeat split; reflexivity].
  destruct (lookup "reviewRating" w) eqn:Hr; explore;
    [|eexists; repeat split; reflexivity].
  destruct (lookup "reviewComment" w) eqn:Hc; explore;
    [|eexists; repeat split; reflexivity].
  destruct (lookup "reviewMessage" w) eqn:Hm; explore;
    [|eexists; repeat split; reflexivity].
  exfalso. destruct H as [H | [H | [H | H]]]; discriminate H.
Qed.

Lemma review_missing_element_escapes_witness :
  exists w',
    review_submit Sample.agreeable blank_page = (Throw TypeError, w') /\
    trace w' = [PreventDefault] /\
    body w' = body blank_page.
Proof.
  apply (review_missing_element_escapes Sample.agreeable blank_page).
  left. reflexivity.
Defined.

(** X13. A booking form that lacks one of the four elements the handler
    looks up: the TypeError escapes the handler, with or without a date
    (the warning too is written into the message area, which is then
    null); the default action has been prevented, nothing is sent and
    the document is as it was. *)
Theorem booking_missing_element_escapes : forall env w,
  lookup "serviceIdBooking" w = None \/ lookup "bookingDate" w = None \/
  lookup "bookingNotes" w = None \/ lookup "bookingMessage" w = None ->
  exists w',
    booking_submit env w = (Throw TypeError, w') /\
    trace w' = (trace w ++ [PreventDefault])%list /\
    body w' = body w.
Proof.
  intros env w H. handlers. explore.
  destruct (lookup "serviceIdBooking" w) eqn:Hs; explore;
    [|eexists; repeat split; reflexivity].
  destruct (lookup "bookingDate" w) eqn:Hd; explore;
    [|eexists; repeat split; reflexivity].
  destruct (lookup "bookingNotes" w) eqn:Hn; explore;
    [|eexists; repeat split; reflexivity].
  destruct (lookup "bookingMessage" w) eqn:Hm; explore;
    [|destruct (negb _); explore; eexists; repeat split; reflexivity].
  exfalso. destruct H as [H | [H | [H | H]]]; discriminate H.
Qed.

Lemma booking_missing_element_escapes_witness :
  exists w',
    booking_submit Sample.agreeable blank_page = (Throw TypeError, w') /\
    trace w' = [PreventDefault] /\
    body w' = body blank_page.
Proof.
  apply (booking_missing_element_escapes Sample.agreeable blank_page).
  left. reflexivity.
Defined.

(** ** What leaves the page *)

(** X14. Whatever the page holds and whatever the server does, a form
    submission first prevents the default action of the form, and sends
    at most one request. *)
Theorem form_submission_shape : forall env w,
  (exists rest,
      trace (snd (review_submit env w))
      = (trace w ++ PreventDefault :: rest)%list /\
      length (requests_of rest) <= 1) /\
  (exists rest,
      trace (snd (booking_submit env w))
      = (trace w ++ PreventDefault :: rest)%list /\
      length (requests_of rest) <= 1).
Proof.
  intros env w. split; handlers; wander; cbn [snd]; traces;
    eexists; (split; [reflexivity | cbn; lia]).
Qed.

(** X15. Whatever the page holds and whatever the server does, each of
    the three removal handlers first asks the user, and sends at most
    one request after the answer. *)
Theorem removal_shape : forall env w this,
  (exists q rest,
      trace (snd (remove_booking_click env this w))
      = (trace w ++ Confirm q (user_confirms env q) :: rest)%list /\
      length (requests_of rest) <= 1) /\
  (exists q rest,
      trace (snd (remove_user_click env this w))
      = (trace w ++ Confirm q (user_confirms env q) :: rest)%list /\
      length (requests_of rest) <= 1) /\
  (exists q rest,
      trace (snd (delete_my_account_click env w))
      = (trace w ++ Confirm q (user_confirms env q) :: rest)%list /\
      length (requests_of rest) <= 1).
Proof.
  intros env w this. repeat split; handlers; explore;
    match goal with
    | |- context [Confirm ?q _] => exists q
    end;
    wander; cbn [snd]; rewrite ?trace_after_remove; traces;
    eexists; (split; [reflexivity | cbn; lia]).
Qed.

Lemma received_three k1 k2 k3 n1 n2 v3 u m hs :
  k1 <> k2 -> k1 <> k3 -> k2 <> k3 ->
  let req := mkRequest u m hs
               (JSON_stringify (VObject [(k1, VNumber n1); (k2, VNumber n2);
                                         (k3, VString v3)])) in
  received k1 req = Some (number_received n1) /\
  received k2 req = Some (number_received n2) /\
  received k3 req = Some (VString v3).
Proof.
  intros H12 H13 H23. apply String.eqb_neq in H12, H13, H23.
  unfold received, JSON_stringify. cbn [request_body serialize].
  destruct n1, n2; cbn [member option_map JSON_parse number_received];
    rewrite ?String.eqb_refl, ?H12, ?H13, ?H23; repeat split; reflexivity.
Qed.

(** X16. The request of a review, on a page that holds the form, its
    three fields being form controls: a POST to /submit_review with the
    JSON content type, whose body reads back as the service id parsed
    as an integer, the rating parsed as a decimal number, and the
    comment as it was typed. The numbers are the doubles that the
    parsing rounds to; where the text does not parse, or the number is
    beyond the doubles, the receiver reads null. The request is sent
    whatever the server then answers. *)
Theorem review_request_carries_the_fields : forall env w s r c m,
  lookup "serviceIdReview" w = Some s ->
  lookup "reviewRating" w = Some r ->
  lookup "reviewComment" w = Some c ->
  lookup "reviewMessage" w = Some m ->
  is_control s = true -> is_control r = true -> is_control c = true ->
  exists req,
    requests_of (trace (snd (review_submit env w)))
    = (requests_of (trace w) ++ [req])%list /\
    url req = "/submit_review" /\
    method req = "POST" /\
    headers req = [("Content-Type", "application/json")] /\
    received "service_id" req = Some (number_received (parseInt (value s))) /\
    received "rating" req = Some (number_received (parseFloat (value r))) /\
    received "comment" req = Some (VString (value c)).
Proof.
  intros env w s r c m Hs Hr Hc Hm Cs Cr Cc.
  eexists. split.
  - handlers. wander; cbn [snd]; traces; rewrite requests_of_app; reflexivity.
  - repeat (split; [reflexivity|]).
    apply received_three; discriminate.
Qed.

Lemma review_request_carries_the_fields_witness :
  exists req,
    requests_of (trace (snd (review_submit Sample.offline
                                           (Sample.page "4.5" ""))))
    = [req] /\
    url req = "/submit_review" /\
    method req = "POST" /\
    headers req = [("Content-Type", "application/json")] /\
    received "service_id" req = Some (VNumber (Finite 3 0)) /\
    received "rating" req = Some (VNumber (Finite 45 (-1))) /\
    received "comment" req = Some (VString "Great").
Proof.
  apply (review_request_carries_the_fields
           Sample.offline (Sample.page "4.5" "") Sample.serviceIdReview
           (Sample.reviewRating "4.5") Sample.reviewComment
           Sample.reviewMessage);
    reflexivity.
Defined.

(** X17. The request of a booking, on a page that holds the form with a
    date, its three fields being form controls: a POST to
    /submit_booking with the JSON content type, whose body reads back as
    the service id parsed as an integer (the double that the parsing
    rounds to, null where the text does not parse), and the date and
    the notes as they were typed. It is sent whatever the server then
    answers. *)
Theorem booking_request_carries_the_fields : forall env w s d n m,
  lookup "serviceIdBooking" w = Some s ->
  lookup "bookingDate" w = Some d ->
  value d <> "" ->
  lookup "bookingNotes" w = Some n ->
  lookup "bookingMessage" w = Some m ->
  is_control s = true -> is_control d = true -> is_control n = true ->
  exists req,
    requests_of (trace (snd (booking_submit env w)))
    = (requests_of (trace w) ++ [req])%list /\
    url req = "/submit_booking" /\
    method req = "POST" /\
    headers req = [("Content-Type", "application/json")] /\
    received "service_id" req = Some (number_received (parseInt (value s))) /\
    received "booking_date" req = Some (VString (value d)) /\
    received "booking_notes" req = Some (VString (value n)).
Proof.
  intros env w s d n m Hs Hd Hv Hn Hm Cs Cd Cn. apply String.eqb_neq in Hv.
  eexists. split.
  - handlers. explore. cbn [truthy]. rewrite Hv. cbn [negb].
    wander; cbn [snd]; traces; rewrite requests_of_app; reflexivity.
  - repeat (split; [reflexivity|]).
    unfold received, JSON_stringify. cbn [request_body serialize].
    destruct (parseInt (value s)); repeat split; reflexivity.
Qed.

Lemma booking_request_carries_the_fields_witness :
  exists req,
    requests_of (trace (snd (booking_submit Sample.offline
                                            (Sample.page "4.5" "2026-12-24"))))
    = [req] /\
    url req = "/submit_booking" /\
    method req = "POST" /\
    headers req = [("Content-Type", "application/json")] /\
    received "service_id" req = Some (VNumber (Finite 7 0)) /\
    received "booking_date" req = Some (VString "2026-12-24") /\
    received "booking_notes" req = Some (VString "x").
Proof.
  apply (booking_request_carries_the_fields
           Sample.offline (Sample.page "4.5" "2026-12-24")
           Sample.serviceIdBooking (Sample.bookingDate "2026-12-24")
           Sample.bookingNotes Sample.bookingMessage);
    try reflexivity.
  discriminate.
Defined.

(** X18. The request of a confirmed removal: a POST to /remove_booking
    or /remove_user whose body carries, under booking_id or user_id,
    the identifier the button has in its data attribute, as a string,
    and null where the button has none. It is sent whatever the page
    holds and whatever the server then answers. *)
Theorem removal_request_carries_the_identifier :
  forall env w booking_button user_button,
  (forall q, user_confirms env q = true) ->
  (exists req,
      requests_of (trace (snd (remove_booking_click env booking_button w)))
      = (requests_of (trace w) ++ [req])%list /\
      url req = "/remove_booking" /\
      method req = "POST" /\
      received "booking_id" req
      = Some (of_attribute (getAttribute booking_button "data-booking-id"))) /\
  (exists req,
      requests_of (trace (snd (remove_user_click env user_button w)))
      = (requests_of (trace w) ++ [req])%list /\
      url req = "/remove_user" /\
      method req = "POST" /\
      received "user_id" req
      = Some (of_attribute (getAttribute user_button "data-user-id"))).
Proof.
  intros env w bb ub Yes. split.
  - exists (mkRequest "/remove_booking" "POST" json_headers
              (JSON_stringify
                 (VObject [("booking_id",
                            of_attribute
                              (getAttribute bb "data-booking-id"))]))).
    split.
    + handlers; wander; cbn [snd]; rewrite ?trace_after_remove; traces;
        rewrite requests_of_app; reflexivity.
    + repeat (split; [reflexivity|]).
      unfold received, JSON_stringify; cbn [request_body serialize].
      destruct (getAttribute bb _); reflexivity.
  - exists (mkRequest "/remove_user" "POST" json_headers
              (JSON_stringify
                 (VObject [("user_id",
                            of_attribute (getAttribute ub "data-user-id"))]))).
    split.
    + handlers; wander; cbn [snd]; rewrite ?trace_after_remove; traces;
        rewrite requests_of_app; reflexivity.
    + repeat (split; [reflexivity|]).
      unfold received, JSON_stringify; cbn [request_body serialize].
      destruct (getAttribute ub _); reflexivity.
Qed.

Lemma removal_request_carries_the_identifier_witness :
  (exists req,
      requests_of
        (trace (snd (remove_booking_click
                       Sample.offline (Sample.remove_booking_button 16 "5")
                       (Sample.page "4.5" ""))))
      = [req] /\
      url req = "/remove_booking" /\
      method req = "POST" /\
      received "booking_id" req = Some (VString "5")) /\
  (exists req,
      requests_of
        (trace (snd (remove_user_click
                       Sample.offline (Sample.plain 22 "button")
                       (Sample.page "4.5" ""))))
      = [req] /\
      url req = "/remove_user" /\
      method req = "POST" /\
      received "user_id" req = Some VNull).
Proof.
  apply (removal_request_carries_the_identifier
           Sample.offline (Sample.page "4.5" "")
           (Sample.remove_booking_button 16 "5") (Sample.plain 22 "button")).
  reflexivity.
Defined.

(** ** One submission after another *)

Lemma lookup_node_write i u f w :
  (forall x, el_id (f x) = el_id x) ->
  lookup_node i (write u f w) = option_map (update u f) (lookup_node i w).
Proof.
  intros H. unfold lookup_node, write. destruct (body w); simpl; [|reflexivity].
  now apply node_by_id_update.
Qed.

(** The two facts a later handler needs of the page an earlier one
    left. *)
Ltac well_formed_tac :=
  repeat first [ rewrite well_formed_emit
               | rewrite well_formed_write by (intros; reflexivity) ];
  assumption.

Ltac node_tac :=
  repeat first [ rewrite lookup_node_emit
               | rewrite lookup_node_write by (intros; reflexivity) ].


(** The page after a booking that succeeded. *)
Lemma booking_success_outcome env w s d n m result :
  well_formed w = true ->
  lookup "serviceIdBooking" w = Some s ->
  lookup "bookingDate" w = Some d ->
  value d <> "" ->
  lookup "bookingNotes" w = Some n ->
  lookup_node "bookingMessage" w = Some (node m []) ->
  (forall req, url req = "/submit_booking" ->
               server env req = Responds (Some result)) ->
  succeeds result = true ->
  exists w',
    booking_submit env w = (Normal tt, w') /\
    trace w' = (trace w ++ [PreventDefault;
                            Fetch (booking_request (value s) (value d)
                                                   (value n))])%list /\
    well_formed w' = true /\
    lookup "serviceIdBooking" w' = Some s /\
    lookup "bookingDate" w' = Some (with_value "" d) /\
    lookup "bookingNotes" w' = Some (with_value "" n) /\
    lookup_node "bookingMessage" w'
    = Some (node (with_className "mt-3"
                    (with_innerHTML
                       ("<div class=" ++ dq ++ "alert alert-success rounded-pill" ++ dq
                        ++ " role=" ++ dq ++ "alert" ++ dq ++ ">"
                        ++ message_of result ++ "</div>")
                                    m)) []).
Proof.
  intros WF Hs Hd Hv Hn Hnode Hsrv Hok.
  pose proof (lookup_node_lookup _ _ _ Hnode) as Hm. simpl in Hm.
  pose proof (lookup_node_childless _ _ _ WF Hnode) as Hleaf.
  apart WF Hm Hs. apart WF Hm Hd. apart WF Hm Hn. apart WF Hd Hn.
  apart WF Hn Hd. apart WF Hd Hm. apart WF Hn Hm. apart WF Hd Hs.
  apart WF Hn Hs.
  apply String.eqb_neq in Hv.
  destruct result as [| | | | | |fields]; try discriminate Hok. simpl in Hok.
  handlers. run. cbn [truthy]. rewrite Hv. cbn [negb]. run.
  match goal with
  | |- context [server env ?q] => rewrite (Hsrv q eq_refl)
  end.
  run. eexists. split; [reflexivity|].
  split; [traces; reflexivity|].
  split; [well_formed_tac|].
  split; [observe; reflexivity|].
  split; [observe; reflexivity|].
  split; [observe; reflexivity|].
  node_tac. rewrite Hnode. cbn [option_map update map]. observe. reflexivity.
Qed.




(** X20. A booking sent again after it succeeded. The success path
    empties the date and the page stays; a second submission is stopped
    by the check of the date: the first request remains the only one,
    and the message area shows the warning in place of the success
    message. The message of the server is plain text. *)
Theorem second_booking_is_stopped : forall env w s d n m result,
  well_formed w = true ->
  lookup "serviceIdBooking" w = Some s ->
  lookup "bookingDate" w = Some d ->
  value d <> "" ->
  lookup "bookingNotes" w = Some n ->
  lookup_node "bookingMessage" w = Some (node m []) ->
  (forall req, url req = "/submit_booking" ->
               server env req = Responds (Some result)) ->
  succeeds result = true ->
  plain_text (message_of result) = true ->
  exists w1 w2 req,
    booking_submit env w = (Normal tt, w1) /\
    booking_submit env w1 = (Normal tt, w2) /\
    requests_of (trace w2) = (requests_of (trace w) ++ [req])%list /\
    option_map innerHTML (lookup "bookingMessage" w2)
    = Some ("<div class=" ++ dq ++ "alert alert-warning rounded-pill" ++ dq
            ++ " role=" ++ dq ++ "alert" ++ dq
            ++ ">Please select a preferred date.</div>").
Proof.
  intros env w s d n m result WF Hs Hd Hv Hn Hnode Hsrv Hok Hplain.
  destruct (booking_success_outcome env w s d n m result WF Hs Hd Hv Hn Hnode
              Hsrv Hok)
    as (w1 & Hrun1 & Htr1 & WF1 & Hs1 & Hd1 & Hn1 & Hnode1).
  pose proof (lookup_node_lookup _ _ _ Hnode1) as Hm1. cbn [element_of] in Hm1.
  clear Hnode1.
  remember (with_className "mt-3"
              (with_innerHTML
                 ("<div class=" ++ dq ++ "alert alert-success rounded-pill" ++ dq
                  ++ " role=" ++ dq ++ "alert" ++ dq ++ ">"
                  ++ message_of result ++ "</div>") m))
    as m1 eqn:Em1.
  clear Em1.
  exists w1. rewrite Hrun1. clear Hrun1.
  handlers. run. cbn [value with_value truthy String.eqb negb]. run.
  do 2 eexists. split; [reflexivity|]. split; [reflexivity|]. traces.
  rewrite Htr1, <- !app_assoc, requests_of_app. split; [reflexivity|].
  rewrite lookup_write by (intros; reflexivity).
  rewrite (lookup_write_markup _ _ m1)
    by (rewrite ?well_formed_emit, ?lookup_emit; assumption).
  cbn [option_map]. unfold written, has_uid. cbn [uid with_innerHTML].
  rewrite Nat.eqb_refl. reflexivity.
Qed.

Lemma second_booking_is_stopped_witness :
  exists w1 w2 req,
    booking_submit Sample.agreeable (Sample.page "4.5" "2026-12-24")
    = (Normal tt, w1) /\
    booking_submit Sample.agreeable w1 = (Normal tt, w2) /\
    requests_of (trace w2) = [req] /\
    option_map innerHTML (lookup "bookingMessage" w2)
    = Some ("<div class=" ++ dq ++ "alert alert-warning rounded-pill" ++ dq
            ++ " role=" ++ dq ++ "alert" ++ dq
            ++ ">Please select a preferred date.</div>").
Proof.
  apply (second_booking_is_stopped
           Sample.agreeable (Sample.page "4.5" "2026-12-24")
           Sample.serviceIdBooking (Sample.bookingDate "2026-12-24")
           Sample.bookingNotes Sample.bookingMessage Sample.thanks);
    try reflexivity.
  discriminate.
Defined.

(** ** What the handlers never do *)

Lemma href_after_remove e w : href (after_remove e w) = href w.
Proof.
  unfold after_remove, remove. destruct (body w); [|reflexivity].
  destruct (has_uid _ _); reflexivity.
Qed.

Lemma clipboard_after_remove e w : clipboard (after_remove e w) = clipboard w.
Proof.
  unfold after_remove, remove. destruct (body w); [|reflexivity].
  destruct (has_uid _ _); reflexivity.
Qed.

(** The three things of the page a handler leaves alone. *)
Ltac untouched :=
  cbn [snd];
  rewrite ?href_after_remove, ?clipboard_after_remove, ?trace_after_remove;
  traces; rewrite ?timers_of_app; cbn [timers_of app];
  rewrite ?app_nil_r; repeat split; reflexivity.

(** X21. Whatever the page holds, whatever the server answers and
    whatever the user says: the two form handlers and the two row
    removals keep the location and the clipboard; a booking and the
    three removals set no timer; the account deletion keeps the
    clipboard. Of these five handlers only the review sets a timer, and
    only the account deletion changes the location. *)
Theorem handlers_keep_to_their_task : forall env w this,
  (href (snd (review_submit env w)) = href w /\
   clipboard (snd (review_submit env w)) = clipboard w) /\
  (href (snd (booking_submit env w)) = href w /\
   clipboard (snd (booking_submit env w)) = clipboard w /\
   timers_of (trace (snd (booking_submit env w))) = timers_of (trace w)) /\
  (href (snd (remove_booking_click env this w)) = href w /\
   clipboard (snd (remove_booking_click env this w)) = clipboard w /\
   timers_of (trace (snd (remove_booking_click env this w)))
   = timers_of (trace w)) /\
  (href (snd (remove_user_click env this w)) = href w /\
   clipboard (snd (remove_user_click env this w)) = clipboard w /\
   timers_of (trace (snd (remove_user_click env this w)))
   = timers_of (trace w)) /\
  (clipboard (snd (delete_my_account_click env w)) = clipboard w /\
   timers_of (trace (snd (delete_my_account_click env w)))
   = timers_of (trace w)).
Proof.
  intros env w this.
  split; [|split; [|split; [|split]]].
  - assert (exists w', review_submit env w = w' /\
                       href (snd w') = href w /\
                       clipboard (snd w') = clipboard w) as (w' & -> & H).
    { handlers; wander; eexists; (split; [reflexivity|]); untouched. }
    exact H.
  - assert (exists w', booking_submit env w = w' /\
                       href (snd w') = href w /\
                       clipboard (snd w') = clipboard w /\
                       timers_of (trace (snd w')) = timers_of (trace w))
      as (w' & -> & H).
    { handlers; wander; eexists; (split; [reflexivity|]); untouched. }
    exact H.
  - assert (exists w', remove_booking_click env this w = w' /\
                       href (snd w') = href w /\
                       clipboard (snd w') = clipboard w /\
                       timers_of (trace (snd w')) = timers_of (trace w))
      as (w' & -> & H).
    { handlers; wander; eexists; (split; [reflexivity|]); untouched. }
    exact H.
  - assert (exists w', remove_user_click env this w = w' /\
                       href (snd w') = href w /\
                       clipboard (snd w') = clipboard w /\
                       timers_of (trace (snd w')) = timers_of (trace w))
      as (w' & -> & H).
    { handlers; wander; eexists; (split; [reflexivity|]); untouched. }
    exact H.
  - assert (exists w', delete_my_account_click env w = w' /\
                       clipboard (snd w') = clipboard w /\
                       timers_of (trace (snd w')) = timers_of (trace w))
      as (w' & -> & H).
    { handlers; wander; eexists; (split; [reflexivity|]); untouched. }
    exact H.
Qed.

(** The elements a form handler does not write to. *)
Ltac framed :=
  cbn [snd];
  repeat first [ rewrite lookup_emit
               | rewrite lookup_write by (intros; reflexivity) ];
  repeat match goal with
         | WF : well_formed ?w = true, H : lookup ?j ?w = Some ?m
           |- context [option_map (written (uid ?m) ?f) (lookup ?i ?w)] =>
             rewrite (lookup_unwritten i j f w m WF H) by assumption
         end;
  reflexivity.

(** Every path through a handler, on a page whose elements are known. *)
Ltac roam := run; repeat (fork; run).

(** X22. On a page that holds the review form, whatever the server
    does, its messages being plain text: the elements a review
    submission changes are the message area, the rating and the
    comment, and no other. What any other id finds is what it found
    before. *)
Theorem review_changes_three_elements_only : forall env w s r c m i,
  well_formed w = true ->
  lookup "serviceIdReview" w = Some s ->
  lookup "reviewRating" w = Some r ->
  lookup "reviewComment" w = Some c ->
  lookup_node "reviewMessage" w = Some (node m []) ->
  (forall req, plain_reply (server env req) = true) ->
  i <> "reviewMessage" -> i <> "reviewRating" -> i <> "reviewComment" ->
  lookup i (snd (review_submit env w)) = lookup i w.
Proof.
  intros env w s r c m i WF Hs Hr Hc Hnode Hplain Him Hir Hic.
  pose proof (lookup_node_lookup _ _ _ Hnode) as Hm. cbn [element_of] in Hm.
  pose proof (lookup_node_childless _ _ _ WF Hnode) as Hleaf.
  apart WF Hm Hs. apart WF Hm Hr. apart WF Hm Hc. apart WF Hr Hc.
  apart WF Hc Hr. apart WF Hr Hm. apart WF Hc Hm. apart WF Hr Hs.
  apart WF Hc Hs.
  handlers. roam; framed.
Qed.

Lemma review_changes_three_elements_only_witness :
  lookup "bookingDate"
         (snd (review_submit Sample.agreeable (Sample.page "4.5" "2026-12-24")))
  = lookup "bookingDate" (Sample.page "4.5" "2026-12-24").
Proof.
  apply (review_changes_three_elements_only
           Sample.agreeable (Sample.page "4.5" "2026-12-24")
           Sample.serviceIdReview (Sample.reviewRating "4.5")
           Sample.reviewComment Sample.reviewMessage "bookingDate");
    try reflexivity; discriminate.
Defined.

(** X23. On a page that holds the booking form, whatever the date and
    whatever the server does, its messages being plain text: the
    elements a booking submission changes are the message area, the
    date and the notes, and no other. *)
Theorem booking_changes_three_elements_only : forall env w s d n m i,
  well_formed w = true ->
  lookup "serviceIdBooking" w = Some s ->
  lookup "bookingDate" w = Some d ->
  lookup "bookingNotes" w = Some n ->
  lookup_node "bookingMessage" w = Some (node m []) ->
  (forall req, plain_reply (server env req) = true) ->
  i <> "bookingMessage" -> i <> "bookingDate" -> i <> "bookingNotes" ->
  lookup i (snd (booking_submit env w)) = lookup i w.
Proof.
  intros env w s d n m i WF Hs Hd Hn Hnode Hplain Him Hid Hin.
  pose proof (lookup_node_lookup _ _ _ Hnode) as Hm. cbn [element_of] in Hm.
  pose proof (lookup_node_childless _ _ _ WF Hnode) as Hleaf.
  apart WF Hm Hs. apart WF Hm Hd. apart WF Hm Hn. apart WF Hd Hn.
  apart WF Hn Hd. apart WF Hd Hm. apart WF Hn Hm. apart WF Hd Hs.
  apart WF Hn Hs.
  handlers. roam; framed.
Qed.

Lemma booking_changes_three_elements_only_witness :
  lookup "reviewComment"
         (snd (booking_submit Sample.agreeable (Sample.page "4.5" "2026-12-24")))
  = lookup "reviewComment" (Sample.page "4.5" "2026-12-24").
Proof.
  apply (booking_changes_three_elements_only
           Sample.agreeable (Sample.page "4.5" "2026-12-24")
           Sample.serviceIdBooking (Sample.bookingDate "2026-12-24")
           Sample.bookingNotes Sample.bookingMessage "reviewComment");
    try reflexivity; discriminate.
Defined.
